(** * Localhost dashboard: the service registry, the port prober, the
      lifecycle controller and the status aggregator

    A shallow embedding of [mcp-server.js] (the tool-call server) and of the
    HTTP dashboard server that ships with it.  Both programs are thin layers
    over the operating system: they read [services.json], ask the file system
    whether a directory exists, run [lsof] and [kill] through a shell, and
    spawn detached child processes.  Every such call is an effect of the
    program type [Prog]; a run of a program against an environment yields the
    value it returns together with the trace of the effects it performed. *)

From Stdlib Require Import ZArith List Bool Ascii String DecimalString DecimalPos Permutation Lia.
From stdpp Require Import gmap strings list.

Open Scope string_scope.
Open Scope list_scope.

(** ** JavaScript strings and numbers

    The texts the programs handle (command lines, process ids, paths,
    messages) are taken as byte strings; the ports are integers small enough
    for [String(n)] to be their decimal writing. *)

Module Js.

(** The line feed, written ['\n'] in the source. *)
Definition LF : ascii := ascii_of_nat 10.
Definition SP : ascii := " "%char.

(** White space as [String.prototype.trim] sees it, on the one-byte
    characters: tab, line feed, vertical tab, form feed, carriage return and
    space. *)
Definition is_ws (a : ascii) : bool :=
  let n := nat_of_ascii a in
  ((9 <=? n)%nat && (n <=? 13)%nat) || (n =? 32)%nat.

Definition is_empty (s : string) : bool :=
  match s with EmptyString => true | String _ _ => false end.

Fixpoint trimStart (s : string) : string :=
  match s with
  | EmptyString => EmptyString
  | String a r => if is_ws a then trimStart r else s
  end.

Fixpoint trimEnd (s : string) : string :=
  match s with
  | EmptyString => EmptyString
  | String a r =>
      let r' := trimEnd r in
      if is_ws a && is_empty r' then EmptyString else String a r'
  end.

(** [s.trim()] *)
Definition trim (s : string) : string := trimEnd (trimStart s).

(** [s.split(sep)] for a one-character separator: never the empty array. *)
Fixpoint split (sep : ascii) (s : string) : list string :=
  match s with
  | EmptyString => [EmptyString]
  | String a r =>
      if Ascii.eqb a sep then EmptyString :: split sep r
      else match split sep r with
           | h :: t => String a h :: t
           | [] => [String a EmptyString]
           end
  end.

(** [parts.join(sep)] *)
Fixpoint join (sep : string) (parts : list string) : string :=
  match parts with
  | [] => EmptyString
  | [p] => p
  | p :: rest => p +:+ sep +:+ join sep rest
  end.

(** The replacement text of [String.prototype.replace] when the pattern has no
    capture group: [$$] is a dollar, [$&] the matched text, [$`] the text
    before the match, [$'] the text after it; any other dollar stands for
    itself. *)
Fixpoint get_substitution (matched before after repl : string) : string :=
  match repl with
  | EmptyString => EmptyString
  | String c r =>
      if Ascii.eqb c "$" then
        match r with
        | String d r' =>
            if Ascii.eqb d "$" then String "$" (get_substitution matched before after r')
            else if Ascii.eqb d "&" then matched +:+ get_substitution matched before after r'
            else if Ascii.eqb d "`" then before +:+ get_substitution matched before after r'
            else if Ascii.eqb d "'" then after +:+ get_substitution matched before after r'
            else String c (get_substitution matched before after r)
        | EmptyString => String c EmptyString
        end
      else String c (get_substitution matched before after r)
  end.

(** [p.replace(/^~/, repl)] *)
Definition replace_leading_tilde (p repl : string) : string :=
  match p with
  | String a rest =>
      if Ascii.eqb a "~" then get_substitution "~" "" rest repl +:+ rest else p
  | EmptyString => p
  end.

(** A number as the programs meet it: an integer (a port read from JSON or
    parsed from a URL), or the [NaN] that [parseInt] yields on a path
    segment that does not start with digits. *)
Inductive num : Type :=
| Num (z : Z)
| NaN.

(** [String(n)], as in a template literal, and [n.toString()] *)
Definition toString (n : num) : string :=
  match n with
  | Num z => NilZero.string_of_int (Z.to_int z)
  | NaN => "NaN"
  end.

(** [a === b] for a JSON integer [a]; [NaN] equals nothing. *)
Definition strict_eq (a : Z) (b : num) : bool :=
  match b with
  | Num z => Z.eqb a z
  | NaN => false
  end.

(** [xs.length] in a template literal *)
Definition length_str {A} (xs : list A) : string :=
  toString (Num (Z.of_nat (length xs))).

End Js.

(** ** Data model *)

(** An entry of the [services] array of [services.json]; [port] is a JSON
    integer. *)
Record ServiceDescriptor : Type := {
  name : string;
  port : Z;
  path : string;
  startCmd : string;
  type : string;
  github : option string
}.

(** The [port] field, for the functions whose argument is named [port]. *)
Abbreviation port_of := port (only parsing).

(** The parsed configuration document: the routes that rewrite it touch its
    [services] member only. *)
Record Config : Type := { services : list ServiceDescriptor }.

(** What [JSON.parse(fs.readFileSync(CONFIG_PATH, 'utf8'))] comes to: the read
    throws, the parse throws, or a document is there.  A document is one
    that holds a [services] array of descriptors, as the data model has it;
    a file that parses to something else (an object without [services], for
    one) has no value here, and nothing below speaks of it. *)
Inductive ConfigRead : Type :=
| ReadFails (msg : string)
| ParseFails (msg : string)
| Parsed (doc : Config).

(** The arguments [exec] hands to its callback: [(error, stdout)]. *)
Record ExecResult : Type := {
  error : option string;
  stdout : string
}.

(** The result of a probe: [{ running, pid }]. *)
Record PortStatus : Type := {
  running : bool;
  pid : option string
}.

Inductive Stdio : Type :=
| StdioIgnore            (* 'ignore' *)
| StdioPiped.            (* ['ignore', 'pipe', 'pipe'] *)

(** The options object of [spawn]. *)
Record SpawnOptions : Type := {
  cwd : string;
  shell : bool;
  detached : bool;
  stdio : Stdio;
  env : gmap string string
}.

(** What a call of [spawn] leads to: it throws at once (an invalid
    argument), the child emits ['error'] (the launch failed, there is no
    pid), or the child runs.  The ['error'] event arrives after [spawn] has
    returned, so after the statements that follow the call in the same
    turn: the timer of [startService] is set by then. *)
Inductive SpawnResult : Type :=
| SpawnThrows (msg : string)
| SpawnError (msg : string)
| Spawned (child_pid : Z).

(** An entry of the HTTP server's [runningProcesses] map. *)
Record ProcessEntry : Type := {
  entry_pid : option Z;
  entry_name : string;
  startedAt : string
}.

(** ** Programs with effects *)

(** A program returns, throws an exception that a [try]/[catch] around it
    can handle, dies on an error nobody can catch (an ['error'] event without
    a listener), or performs one call to the outside and goes on with the
    answer. *)
Inductive Prog (A : Type) : Type :=
| Ret (a : A)
| Throw (msg : string)
| Uncaught (msg : string)
| ReadConfig (k : ConfigRead -> Prog A)
| ExistsSync (p : string) (k : bool -> Prog A)
| Exec (cmd : string) (k : ExecResult -> Prog A)
| Spawn (cmd : string) (args : list string) (opts : SpawnOptions)
        (k : SpawnResult -> Prog A)
| SetTimeout (ms : Z) (k : Prog A)
| WriteConfig (doc : Config) (k : option string -> Prog A)
| ConsoleLog (msg : string) (k : Prog A)
| NewDate (k : string -> Prog A)
| ProcSet (key : Z) (entry : ProcessEntry) (k : Prog A)
| ProcDelete (key : Js.num) (k : Prog A).

Arguments Ret {A} a.
Arguments Throw {A} msg.
Arguments Uncaught {A} msg.
Arguments ReadConfig {A} k.
Arguments ExistsSync {A} p k.
Arguments Exec {A} cmd k.
Arguments Spawn {A} cmd args opts k.
Arguments SetTimeout {A} ms k.
Arguments WriteConfig {A} doc k.
Arguments ConsoleLog {A} msg k.
Arguments NewDate {A} k.
Arguments ProcSet {A} key entry k.
Arguments ProcDelete {A} key k.

(** [await p] followed by the rest of an [async] function. *)
Fixpoint bind {A B} (p : Prog A) (f : A -> Prog B) : Prog B :=
  match p with
  | Ret a => f a
  | Throw msg => Throw msg
  | Uncaught msg => Uncaught msg
  | ReadConfig k => ReadConfig (fun c => bind (k c) f)
  | ExistsSync q k => ExistsSync q (fun b => bind (k b) f)
  | Exec cmd k => Exec cmd (fun r => bind (k r) f)
  | Spawn cmd args opts k => Spawn cmd args opts (fun r => bind (k r) f)
  | SetTimeout ms k => SetTimeout ms (bind k f)
  | WriteConfig doc k => WriteConfig doc (fun r => bind (k r) f)
  | ConsoleLog msg k => ConsoleLog msg (bind k f)
  | NewDate k => NewDate (fun d => bind (k d) f)
  | ProcSet key e k => ProcSet key e (bind k f)
  | ProcDelete key k => ProcDelete key (bind k f)
  end.

Notation "x <- p ;; q" := (bind p (fun x => q))
  (at level 100, p at next level, right associativity).

(** [try { p } catch (err) { handler(err.message) }] *)
Fixpoint try_catch {A} (p : Prog A) (handler : string -> Prog A) : Prog A :=
  match p with
  | Ret a => Ret a
  | Throw msg => handler msg
  | Uncaught msg => Uncaught msg
  | ReadConfig k => ReadConfig (fun c => try_catch (k c) handler)
  | ExistsSync q k => ExistsSync q (fun b => try_catch (k b) handler)
  | Exec cmd k => Exec cmd (fun r => try_catch (k r) handler)
  | Spawn cmd args opts k => Spawn cmd args opts (fun r => try_catch (k r) handler)
  | SetTimeout ms k => SetTimeout ms (try_catch k handler)
  | WriteConfig doc k => WriteConfig doc (fun r => try_catch (k r) handler)
  | ConsoleLog msg k => ConsoleLog msg (try_catch k handler)
  | NewDate k => NewDate (fun d => try_catch (k d) handler)
  | ProcSet key e k => ProcSet key e (try_catch k handler)
  | ProcDelete key k => ProcDelete key (try_catch k handler)
  end.

(** [Promise.all(xs.map(f))]: the calls are issued in the order of the list
    and the results are joined in that order. *)
Fixpoint promise_all_map {A B} (f : A -> Prog B) (xs : list A) : Prog (list B) :=
  match xs with
  | [] => Ret []
  | x :: rest =>
      y <- f x ;;
      ys <- promise_all_map f rest ;;
      Ret (y :: ys)
  end.

(** ** The environment and the runs of a program *)

(** The outside at one moment: the configuration file, the directories, what
    the shell answers to a command line, what a launch leads to, whether a
    write of the configuration succeeds, and the clock. *)
Record World : Type := {
  config_file : ConfigRead;
  fs_exists : string -> bool;
  sh_exec : string -> ExecResult;
  os_spawn : string -> list string -> SpawnOptions -> SpawnResult;
  fs_write : Config -> option string;
  clock : string
}.

(** The outside over time: the call number [t] of a run sees [e t].  Nothing
    is assumed on how one moment relates to the next. *)
Definition Env : Type := nat -> World.

Inductive Event : Type :=
| EvReadConfig (c : ConfigRead)
| EvExistsSync (p : string) (b : bool)
| EvExec (cmd : string) (r : ExecResult)
| EvSpawn (cmd : string) (args : list string) (opts : SpawnOptions) (r : SpawnResult)
| EvSetTimeout (ms : Z)
| EvWriteConfig (doc : Config) (r : option string)
| EvConsoleLog (msg : string)
| EvNewDate (d : string)
| EvProcSet (key : Z) (entry : ProcessEntry)
| EvProcDelete (key : Js.num).

Inductive Outcome (A : Type) : Type :=
| Returned (a : A)
| Thrown (msg : string)
| Crashed (msg : string).

Arguments Returned {A} a.
Arguments Thrown {A} msg.
Arguments Crashed {A} msg.

(** The run of [p] whose first call to the outside is call number [t]. *)
Fixpoint run {A} (e : Env) (p : Prog A) (t : nat) : Outcome A * list Event :=
  match p with
  | Ret a => (Returned a, [])
  | Throw msg => (Thrown msg, [])
  | Uncaught msg => (Crashed msg, [])
  | ReadConfig k =>
      let c := config_file (e t) in
      let '(o, tr) := run e (k c) (S t) in (o, EvReadConfig c :: tr)
  | ExistsSync q k =>
      let b := fs_exists (e t) q in
      let '(o, tr) := run e (k b) (S t) in (o, EvExistsSync q b :: tr)
  | Exec cmd k =>
      let r := sh_exec (e t) cmd in
      let '(o, tr) := run e (k r) (S t) in (o, EvExec cmd r :: tr)
  | Spawn cmd args opts k =>
      let r := os_spawn (e t) cmd args opts in
      let '(o, tr) := run e (k r) (S t) in (o, EvSpawn cmd args opts r :: tr)
  | SetTimeout ms k =>
      let '(o, tr) := run e k (S t) in (o, EvSetTimeout ms :: tr)
  | WriteConfig doc k =>
      let r := fs_write (e t) doc in
      let '(o, tr) := run e (k r) (S t) in (o, EvWriteConfig doc r :: tr)
  | ConsoleLog msg k =>
      let '(o, tr) := run e k (S t) in (o, EvConsoleLog msg :: tr)
  | NewDate k =>
      let d := clock (e t) in
      let '(o, tr) := run e (k d) (S t) in (o, EvNewDate d :: tr)
  | ProcSet key entry k =>
      let '(o, tr) := run e k (S t) in (o, EvProcSet key entry :: tr)
  | ProcDelete key k =>
      let '(o, tr) := run e k (S t) in (o, EvProcDelete key :: tr)
  end.

(** A launch of a child process, and a command line that kills. *)
Definition is_spawn (ev : Event) : bool :=
  match ev with EvSpawn _ _ _ _ => true | _ => false end.

Definition spawns (tr : list Event) : nat := length (List.filter is_spawn tr).

Definition is_exec (ev : Event) : bool :=
  match ev with EvExec _ _ => true | _ => false end.

Definition execs (tr : list Event) : nat := length (List.filter is_exec tr).

Definition nl : string := String Js.LF EmptyString.

(** The two command lines the programs hand to the shell. *)
Definition lsof_cmd (port : Js.num) : string :=
  "lsof -i :" +:+ Js.toString port +:+ " -t".

Definition kill_cmd (port : Js.num) : string :=
  "lsof -i :" +:+ Js.toString port +:+ " -t | xargs kill -9 2>/dev/null".

Definition localhost_url (port : Js.num) : string :=
  "http://localhost:" +:+ Js.toString port.

(** [services.find(s => s.port === port)] *)
Definition services_find (services : list ServiceDescriptor) (port : Js.num)
  : option ServiceDescriptor :=
  List.find (fun s => Js.strict_eq (port_of s) port) services.

(** [const [cmd, ...args] = startCmd.split(' ')] *)
Definition parse_startCmd (startCmd : string) : string * list string :=
  let parts := Js.split Js.SP startCmd in
  (List.hd EmptyString parts, List.tl parts).

(** ** The tool-call server, [mcp-server.js] *)

Module Mcp.

(** An element of the array [getAllServicesStatus] resolves to. *)
Record ServiceView : Type := {
  view_name : string;
  view_port : Z;
  view_path : string;
  view_type : string;
  view_running : bool;
  view_pid : option string;
  view_startCmd : string;
  view_github : option string;
  view_url : option string
}.

(** What [startService] and [stopService] resolve to: [{ success: false,
    error }] or the success object. *)
Inductive StartResult : Type :=
| StartFailed (error : string)
| StartOk (service : string) (port : Js.num) (started : bool) (message : string).

Inductive StopResult : Type :=
| StopFailed (error : string)
| StopOk (message : string).

(** The arguments of a tool call, and its answer: one text item and the
    error flag.  A call carries an [arguments] object; [arg_port] is its
    [port] member ([Js.NaN] stands for one that is no number), [arg_filter]
    its [filter] member when there is one.  A call without [arguments] has
    no value here. *)
Record ToolArgs : Type := {
  arg_filter : option string;
  arg_port : Js.num
}.

Record ToolResult : Type := {
  text : string;
  isError : bool
}.

Section Process.

(** [os.homedir()] and [process.env], fixed when the server starts. *)
Variable HOME : string.
Variable process_env : gmap string string.

Definition loadServices : Prog (list ServiceDescriptor) :=
  ReadConfig (fun c =>
    match c with
    | Parsed doc => Ret doc.(services)
    | ReadFails _ | ParseFails _ => Ret []
    end).

Definition expandPath (p : string) : string :=
  Js.replace_leading_tilde p HOME.

(** The callback of [exec] in [checkPort]: [error] is not looked at. *)
Definition port_status (r : ExecResult) : PortStatus :=
  let out := Js.trim r.(stdout) in
  let first := List.hd EmptyString (Js.split Js.LF out) in
  {| running := negb (Js.is_empty out);
     pid := if Js.is_empty first then None else Some first |}.

Definition checkPort (port : Js.num) : Prog PortStatus :=
  Exec (lsof_cmd port) (fun r => Ret (port_status r)).

Definition service_view (s : ServiceDescriptor) (status : PortStatus) : ServiceView :=
  {| view_name := s.(name);
     view_port := s.(port);
     view_path := s.(path);
     view_type := s.(type);
     view_running := status.(running);
     view_pid := status.(pid);
     view_startCmd := s.(startCmd);
     view_github :=
       match s.(github) with
       | Some g => if Js.is_empty g then None else Some g
       | None => None
       end;
     view_url :=
       if status.(running) then Some (localhost_url (Js.Num s.(port))) else None |}.

(** The [async (s) => ...] that [getAllServicesStatus] maps over the
    services. *)
Definition service_status (s : ServiceDescriptor) : Prog ServiceView :=
  status <- checkPort (Js.Num s.(port)) ;;
  Ret (service_view s status).

Definition getAllServicesStatus : Prog (list ServiceView) :=
  services <- loadServices ;;
  promise_all_map service_status services.

Definition pid_text (p : option string) : string :=
  match p with Some s => s | None => "null" end.

Definition startService (port : Js.num) : Prog StartResult :=
  services <- loadServices ;;
  match services_find services port with
  | None =>
      Ret (StartFailed ("No service configured for port " +:+ Js.toString port))
  | Some service =>
      let cwd := expandPath service.(path) in
      ExistsSync cwd (fun found =>
        if negb found then Ret (StartFailed ("Directory not found: " +:+ cwd))
        else
          status <- checkPort port ;;
          if status.(running) then
            Ret (StartFailed ("Port " +:+ Js.toString port +:+ " already in use (pid: "
                              +:+ pid_text status.(pid) +:+ ")"))
          else
            let '(cmd, args) := parse_startCmd service.(startCmd) in
            Spawn cmd args
              {| cwd := cwd; shell := true; detached := true; stdio := StdioIgnore;
                 env := <["PORT" := Js.toString port]> process_env |}
              (fun child =>
                 match child with
                 | SpawnThrows msg => Throw msg
                 | SpawnError msg => SetTimeout 2000 (Uncaught msg)
                 | Spawned _ =>
                     SetTimeout 2000 (
                       newStatus <- checkPort port ;;
                       Ret (StartOk service.(name) port newStatus.(running)
                              (if newStatus.(running)
                               then "Started " +:+ service.(name) +:+ " on port "
                                    +:+ Js.toString port
                               else "Start command sent, but service may still be initializing")))
                 end))
  end.

Definition stopService (port : Js.num) : Prog StopResult :=
  status <- checkPort port ;;
  if negb status.(running) then
    Ret (StopFailed ("Nothing running on port " +:+ Js.toString port))
  else
    Exec (kill_cmd port) (fun _ =>
      Ret (StopOk ("Stopped service on port " +:+ Js.toString port))).

(** *** The tool handlers *)

(** [args?.filter || 'all'] *)
Definition filter_or_all (f : option string) : string :=
  match f with
  | Some s => if Js.is_empty s then "all" else s
  | None => "all"
  end.

Definition type_tags : list string := ["frontend"; "backend"; "api"].

(** The narrowing of [list_services]. *)
Definition narrow (filter : string) (services : list ServiceView) : list ServiceView :=
  if String.eqb filter "running" then
    List.filter (fun s => s.(view_running)) services
  else if String.eqb filter "stopped" then
    List.filter (fun s => negb s.(view_running)) services
  else if List.existsb (String.eqb filter) type_tags then
    List.filter (fun s => String.eqb s.(view_type) filter) services
  else services.

(** The status aggregator behind [list_services]: the views, narrowed. *)
Definition getAll (filter : option string) : Prog (list ServiceView) :=
  services <- getAllServicesStatus ;;
  Ret (narrow (filter_or_all filter) services).

Definition url_text (u : option string) : string :=
  match u with Some s => s | None => "null" end.

Definition service_line (s : ServiceView) : string :=
  (if s.(view_running) then "🟢" else "⚫") +:+ " " +:+ s.(view_name) +:+ " [:"
  +:+ Js.toString (Js.Num s.(view_port)) +:+ "] "
  +:+ (if s.(view_running) then url_text s.(view_url) else "(stopped)").

Definition ok_text (s : string) : ToolResult := {| text := s; isError := false |}.

Definition list_services (args : ToolArgs) : Prog ToolResult :=
  services <- getAll args.(arg_filter) ;;
  let filter := filter_or_all args.(arg_filter) in
  let formatted := Js.join nl (List.map service_line services) in
  Ret (ok_text ("Local Services (" +:+ filter +:+ "):" +:+ nl +:+ nl +:+ formatted
                +:+ nl +:+ nl +:+ "Total: " +:+ Js.length_str services +:+ " services")).

Definition check_port (args : ToolArgs) : Prog ToolResult :=
  status <- checkPort args.(arg_port) ;;
  services <- loadServices ;;
  let service := services_find services args.(arg_port) in
  Ret (ok_text
    (if status.(running) then
       "Port " +:+ Js.toString args.(arg_port) +:+ " is RUNNING (pid: "
       +:+ pid_text status.(pid) +:+ ")"
       +:+ match service with Some s => " - " +:+ s.(name) | None => "" end
     else
       "Port " +:+ Js.toString args.(arg_port) +:+ " is NOT running"
       +:+ match service with Some s => " - " +:+ s.(name) +:+ " is stopped" | None => "" end)).

(** The text of [start_service]: [result.success ? ... : ...]. *)
Definition start_text (args : ToolArgs) (result : StartResult) : string :=
  match result with
  | StartOk _ _ _ message =>
      "✅ " +:+ message +:+ nl +:+ "URL: " +:+ localhost_url args.(arg_port)
  | StartFailed error => "❌ Failed: " +:+ error
  end.

Definition start_service (args : ToolArgs) : Prog ToolResult :=
  result <- startService args.(arg_port) ;;
  Ret (ok_text (start_text args result)).

Definition stop_text (result : StopResult) : string :=
  match result with
  | StopOk message => "✅ " +:+ message
  | StopFailed error => "❌ " +:+ error
  end.

Definition stop_service (args : ToolArgs) : Prog ToolResult :=
  result <- stopService args.(arg_port) ;;
  Ret (ok_text (stop_text result)).

Definition get_service_info (args : ToolArgs) : Prog ToolResult :=
  services <- loadServices ;;
  match services_find services args.(arg_port) with
  | None =>
      Ret (ok_text ("No service configured for port " +:+ Js.toString args.(arg_port)))
  | Some service =>
      status <- checkPort args.(arg_port) ;;
      Ret (ok_text
        ("Service: " +:+ service.(name) +:+ nl
         +:+ "Port: " +:+ Js.toString (Js.Num service.(port)) +:+ nl
         +:+ "Status: " +:+ (if status.(running) then "RUNNING" else "STOPPED") +:+ nl
         +:+ "Type: " +:+ service.(type) +:+ nl
         +:+ "Path: " +:+ service.(path) +:+ nl
         +:+ "Start Command: " +:+ service.(startCmd) +:+ nl
         +:+ "GitHub: "
         +:+ match service.(github) with
             | Some g => if Js.is_empty g then "N/A" else g
             | None => "N/A"
             end +:+ nl
         +:+ (if status.(running)
              then "URL: " +:+ localhost_url (Js.Num service.(port))
              else "")))
  end.

Definition quick_status : Prog ToolResult :=
  services <- getAllServicesStatus ;;
  let running := List.filter (fun s => s.(view_running)) services in
  let stopped := List.filter (fun s => negb s.(view_running)) services in
  let running_lines :=
    Js.join nl (List.map (fun s => "   • " +:+ s.(view_name) +:+ " → "
                                   +:+ localhost_url (Js.Num s.(view_port))) running) in
  Ret (ok_text
    ("📊 Local Services Status" +:+ nl +:+ nl
     +:+ "🟢 Running: " +:+ Js.length_str running +:+ nl
     +:+ (if Js.is_empty running_lines then "   (none)" else running_lines) +:+ nl +:+ nl
     +:+ "⚫ Stopped: " +:+ Js.length_str stopped +:+ nl
     +:+ Js.join nl (List.map (fun s => "   • " +:+ s.(view_name) +:+ " [:"
                                        +:+ Js.toString (Js.Num s.(view_port)) +:+ "]")
                       (List.firstn 5 stopped))
     +:+ (if (5 <? length stopped)%nat
          then nl +:+ "   ... and "
               +:+ Js.toString (Js.Num (Z.of_nat (length stopped) - 5)) +:+ " more"
          else "")
     +:+ nl +:+ nl
     +:+ "Total: " +:+ Js.length_str services +:+ " services configured")).

(** The handler of a tool call: the [switch] on the tool's name inside
    [try]/[catch]. *)
Definition call_tool (tool : string) (args : ToolArgs) : Prog ToolResult :=
  try_catch
    (if String.eqb tool "list_services" then list_services args
     else if String.eqb tool "check_port" then check_port args
     else if String.eqb tool "start_service" then start_service args
     else if String.eqb tool "stop_service" then stop_service args
     else if String.eqb tool "get_service_info" then get_service_info args
     else if String.eqb tool "quick_status" then quick_status
     else Ret {| text := "Unknown tool: " +:+ tool; isError := true |})
    (fun msg => Ret {| text := "Error: " +:+ msg; isError := true |}).

End Process.

End Mcp.

(** ** The HTTP dashboard server *)

Module Http.

(** The JSON bodies of the routes modelled here. *)
Inductive Body : Type :=
| BodyError (error : string)              (* { error } *)
| BodyStarted (child_pid : Z)             (* { success: true, pid } *)
| BodySuccess                             (* { success: true } *)
| BodyStatus (status : PortStatus).       (* { running, pid } or { running: false } *)

Record Response : Type := {
  statusCode : Z;
  body : Body
}.

Section Process.

Variable HOME : string.
Variable process_env : gmap string string.

(** No [try] here: a read or a parse that fails throws. *)
Definition loadServices : Prog (list ServiceDescriptor) :=
  ReadConfig (fun c =>
    match c with
    | Parsed doc => Ret doc.(services)
    | ReadFails msg | ParseFails msg => Throw msg
    end).

Definition expandPath (p : string) : string :=
  Js.replace_leading_tilde p HOME.

Definition port_status (r : ExecResult) : PortStatus :=
  let out := Js.trim r.(stdout) in
  if Js.is_empty out then {| running := false; pid := None |}
  else {| running := true; pid := Some (List.hd EmptyString (Js.split Js.LF out)) |}.

Definition checkPort (port : Js.num) : Prog PortStatus :=
  Exec (lsof_cmd port) (fun r => Ret (port_status r)).

(** [startService(service)]: a rejected promise is a [Throw].  The port is
    not probed.  The entry is recorded and the timer set before the child
    can emit ['error']; the rejection then settles the promise and the timer
    is left to fire on a settled one. *)
Definition startService (service : ServiceDescriptor) : Prog Body :=
  let cwd := expandPath service.(path) in
  ExistsSync cwd (fun found =>
    if negb found then Throw ("Directory not found: " +:+ cwd)
    else
      let '(cmd, args) := parse_startCmd service.(startCmd) in
      ConsoleLog ("Starting " +:+ service.(name) +:+ " in " +:+ cwd +:+ ": "
                  +:+ service.(startCmd)) (
      Spawn cmd args
        {| cwd := cwd; shell := true; detached := true; stdio := StdioPiped;
           env := <["PORT" := Js.toString (Js.Num service.(port))]> process_env |}
        (fun child =>
           match child with
           | SpawnThrows msg => Throw msg
           | SpawnError msg =>
               NewDate (fun now =>
               ProcSet service.(port)
                 {| entry_pid := None; entry_name := service.(name); startedAt := now |}
                 (SetTimeout 1000 (Throw msg)))
           | Spawned child_pid =>
               NewDate (fun now =>
               ProcSet service.(port)
                 {| entry_pid := Some child_pid; entry_name := service.(name);
                    startedAt := now |}
                 (SetTimeout 1000 (Ret (BodyStarted child_pid))))
           end))).

(** [stopService(port)]: the port is not probed. *)
Definition stopService (port : Js.num) : Prog Body :=
  Exec (kill_cmd port) (fun _ => ProcDelete port (Ret BodySuccess)).

Definition respond (code : Z) (b : Body) : Prog Response :=
  Ret {| statusCode := code; body := b |}.

(** [GET /api/status/{port}] *)
Definition get_status (port : Js.num) : Prog Response :=
  status <- checkPort port ;;
  respond 200 (BodyStatus status).

(** [POST /api/start/{port}], from the parsed port on. *)
Definition post_start (port : Js.num) : Prog Response :=
  services <- loadServices ;;
  match services_find services port with
  | None => respond 404 (BodyError "Service not found")
  | Some service =>
      try_catch
        (result <- startService service ;; respond 200 result)
        (fun msg => respond 500 (BodyError msg))
  end.

(** [POST /api/stop/{port}] *)
Definition post_stop (port : Js.num) : Prog Response :=
  result <- stopService port ;;
  respond 200 result.

(** [DELETE /api/services/{port}]: the document is read, its [services] are
    filtered, and the document is written back. *)
Definition delete_service (port : Js.num) : Prog Response :=
  ReadConfig (fun c =>
    match c with
    | ReadFails msg | ParseFails msg => Throw msg
    | Parsed config =>
        WriteConfig
          {| services :=
               List.filter (fun s => negb (Js.strict_eq (port_of s) port)) config.(services) |}
          (fun failure =>
             match failure with
             | Some msg => Throw msg
             | None => respond 200 BodySuccess
             end)
    end).

End Process.

End Http.

(** ** The tools the tool-call server advertises *)

(** An entry of the answer to a [ListTools] request: the tool's name, the
    properties of its input schema and the required ones. *)
Record ToolSpec : Type := {
  tool_name : string;
  tool_properties : list string;
  tool_required : list string
}.

Definition list_tools : list ToolSpec :=
  [ {| tool_name := "list_services"; tool_properties := ["filter"]; tool_required := [] |};
    {| tool_name := "check_port"; tool_properties := ["port"]; tool_required := ["port"] |};
    {| tool_name := "start_service"; tool_properties := ["port"];
       tool_required := ["port"] |};
    {| tool_name := "stop_service"; tool_properties := ["port"]; tool_required := ["port"] |};
    {| tool_name := "get_service_info"; tool_properties := ["port"];
       tool_required := ["port"] |};
    {| tool_name := "quick_status"; tool_properties := []; tool_required := [] |} ].


(** ** The other routes of the HTTP server, and its router *)

Module Routes.

(** What [JSON.parse(body)] comes to in the add-service route: it throws, or
    the body is a descriptor. *)
Inductive RequestBody : Type :=
| Malformed (msg : string)
| Descriptor (d : ServiceDescriptor).

(** The JSON bodies of the routes modelled here. *)
Inductive Json : Type :=
| JError (error : string)                                   (* { error } *)
| JFlag (success : bool)                                    (* { success } *)
| JServices (views : list (ServiceDescriptor * PortStatus)).  (* [{ ...s, ...status }] *)

Record Reply : Type := {
  replyCode : Z;
  json : Json
}.

Definition reply (code : Z) (j : Json) : Prog Reply :=
  Ret {| replyCode := code; json := j |}.

Section Process.

Variable HOME : string.

(** [getAllStatus]: each element is the descriptor spread together with the
    status of its port. *)
Definition service_status (s : ServiceDescriptor) : Prog (ServiceDescriptor * PortStatus) :=
  status <- Http.checkPort (Js.Num s.(port)) ;;
  Ret (s, status).

Definition getAllStatus : Prog (list (ServiceDescriptor * PortStatus)) :=
  services <- Http.loadServices ;;
  promise_all_map service_status services.

(** [GET /api/services] *)
Definition get_services : Prog Reply :=
  try_catch
    (statuses <- getAllStatus ;; reply 200 (JServices statuses))
    (fun msg => reply 500 (JError msg)).

(** [POST /api/services], once the body has arrived. *)
Definition post_services (body : RequestBody) : Prog Http.Response :=
  try_catch
    (match body with
     | Malformed msg => Throw msg
     | Descriptor newService =>
         ReadConfig (fun c =>
           match c with
           | ReadFails msg | ParseFails msg => Throw msg
           | Parsed config =>
               WriteConfig {| services := config.(services) ++ [newService] |}
                 (fun failure =>
                    match failure with
                    | Some msg => Throw msg
                    | None => Http.respond 200 Http.BodySuccess
                    end)
           end)
     end)
    (fun msg => Http.respond 500 (Http.BodyError msg)).

(** The command line of the two routes that open a service's directory. *)
Definition double_quote : string := String (ascii_of_nat 34) EmptyString.

Definition open_cmd (program fullPath : string) : string :=
  program +:+ " " +:+ double_quote +:+ fullPath +:+ double_quote.

(** [POST /api/code/{port}] and [POST /api/finder/{port}], which differ in the
    program only: [code] and [open]. *)
Definition open_in (program : string) (port : Js.num) : Prog Reply :=
  services <- Http.loadServices ;;
  match services_find services port with
  | Some service =>
      let fullPath := Http.expandPath HOME service.(path) in
      Exec (open_cmd program fullPath) (fun r =>
        reply 200 (JFlag (match r.(error) with Some _ => false | None => true end)))
  | None => reply 404 (JError "Service not found")
  end.

Definition post_code (port : Js.num) : Prog Reply := open_in "code" port.
Definition post_finder (port : Js.num) : Prog Reply := open_in "open" port.

End Process.

(** *** The router *)

(** The value of a digit in a radix, if it is one. *)
Definition digit_value (radix : Z) (c : ascii) : option Z :=
  let n := Z.of_nat (nat_of_ascii c) in
  let v := if ((48 <=? n) && (n <=? 57))%Z then Some (n - 48)%Z
           else if ((97 <=? n) && (n <=? 122))%Z then Some (n - 87)%Z
           else if ((65 <=? n) && (n <=? 90))%Z then Some (n - 55)%Z
           else None in
  match v with
  | Some d => if (d <? radix)%Z then Some d else None
  | None => None
  end.

Fixpoint digits (radix : Z) (s : string) (acc : Z) : Z :=
  match s with
  | EmptyString => acc
  | String c r =>
      match digit_value radix c with
      | Some d => digits radix r (acc * radix + d)%Z
      | None => acc
      end
  end.

(** The longest run of digits at the front of [s], read in [radix]; [NaN]
    when [s] does not start with a digit. *)
Definition leading_digits (radix : Z) (s : string) : option Z :=
  match s with
  | String c _ =>
      match digit_value radix c with
      | Some _ => Some (digits radix s 0)
      | None => None
      end
  | EmptyString => None
  end.

(** [parseInt(s)] without a radix: leading white space is skipped, a sign
    is read, [0x] or [0X] announces hexadecimal digits, and what follows the
    digits is ignored.  The result is the integer the digits write, which is
    what [parseInt] returns up to 2^53. *)
Definition parseInt (s : string) : Js.num :=
  let s := Js.trimStart s in
  let '(negative, s) :=
    match s with
    | String c r =>
        if Ascii.eqb c "-" then (true, r)
        else if Ascii.eqb c "+" then (false, r)
        else (false, s)
    | EmptyString => (false, s)
    end in
  let '(radix, s) :=
    match s with
    | String c (String x r) =>
        if Ascii.eqb c "0" && (Ascii.eqb x "x" || Ascii.eqb x "X") then (16%Z, r)
        else (10%Z, s)
    | _ => (10%Z, s)
    end in
  match leading_digits radix s with
  | Some v => Js.Num (if negative then (- v)%Z else v)
  | None => Js.NaN
  end.

(** [parseInt(pathname.split('/')[3])]: a missing piece is [undefined]. *)
Definition port_of_path (pathname : string) : Js.num :=
  parseInt (List.nth 3 (Js.split "/" pathname) "undefined").

(** The block of the request handler that answers a request. *)
Inductive Route : Type :=
| CorsPreflight                 (* 204 *)
| Dashboard                     (* index.html *)
| ListServices                  (* get_services *)
| Status (port : Js.num)        (* Http.get_status *)
| Start (port : Js.num)         (* Http.post_start *)
| Stop (port : Js.num)          (* Http.post_stop *)
| AddService                    (* post_services *)
| RemoveService (port : Js.num) (* Http.delete_service *)
| OpenCode (port : Js.num)      (* post_code *)
| OpenFinder (port : Js.num)    (* post_finder *)
| NotFound.                     (* 404 'Not found' *)

(** The chain of [if]s of the request handler, on [req.method] and
    [url.pathname]. *)
Definition route (method pathname : string) : Route :=
  let method_is m := String.eqb method m in
  let path_is p := String.eqb pathname p in
  let path_under p := String.prefix p pathname in
  if method_is "OPTIONS" then CorsPreflight
  else if method_is "GET" && (path_is "/" || path_is "/index.html") then Dashboard
  else if method_is "GET" && path_is "/api/services" then ListServices
  else if method_is "GET" && path_under "/api/status/" then Status (port_of_path pathname)
  else if method_is "POST" && path_under "/api/start/" then Start (port_of_path pathname)
  else if method_is "POST" && path_under "/api/stop/" then Stop (port_of_path pathname)
  else if method_is "POST" && path_is "/api/services" then AddService
  else if method_is "DELETE" && path_under "/api/services/" then RemoveService (port_of_path pathname)
  else if method_is "POST" && path_under "/api/code/" then OpenCode (port_of_path pathname)
  else if method_is "POST" && path_under "/api/finder/" then OpenFinder (port_of_path pathname)
  else NotFound.

End Routes.

(** ** Vocabulary of the statements *)

(** A piece of text without white space, as a process id is. *)
Fixpoint no_ws (s : string) : bool :=
  match s with
  | EmptyString => true
  | String a r => negb (Js.is_ws a) && no_ws r
  end.

(** The registry as the tool-call server loads it from a read of the
    configuration: no descriptor at all when the read or the parse fails. *)
Definition registry_of (c : ConfigRead) : list ServiceDescriptor :=
  match c with
  | Parsed doc => doc.(services)
  | ReadFails _ | ParseFails _ => []
  end.

(** A view that joins a descriptor with the status of some probe. *)
Definition view_of (s : ServiceDescriptor) (v : Mcp.ServiceView) : Prop :=
  exists r : ExecResult, v = Mcp.service_view s (Mcp.port_status r).

(** The filter values [list_services] tells apart from [all]. *)
Definition narrowing_filters : list string :=
  ["running"; "stopped"] ++ Mcp.type_tags.

(** The calls of the termination command for a port in a trace. *)
Definition kills (port : Js.num) (tr : list Event) : nat :=
  length (List.filter
            (fun ev => match ev with
                       | EvExec cmd _ => String.eqb cmd (kill_cmd port)
                       | _ => false
                       end) tr).

(** A text without the dollar sign, which is what makes a replacement text
    stand for itself. *)
Fixpoint no_dollar (s : string) : bool :=
  match s with
  | EmptyString => true
  | String a r => negb (Ascii.eqb a "$") && no_dollar r
  end.

(** A read of the configuration that yields no document. *)
Definition unusable (c : ConfigRead) : Prop :=
  match c with
  | Parsed _ => False
  | ReadFails _ | ParseFails _ => True
  end.

(** The same world with another configuration file. *)
Definition with_config (c : ConfigRead) (w : World) : World :=
  {| config_file := c; fs_exists := w.(fs_exists); sh_exec := w.(sh_exec);
     os_spawn := w.(os_spawn); fs_write := w.(fs_write); clock := w.(clock) |}.

(** A trace with the answers of the configuration reads blanked out. *)
Definition blind (ev : Event) : Event :=
  match ev with
  | EvReadConfig _ => EvReadConfig (Parsed {| services := [] |})
  | _ => ev
  end.

(** The character [c] occurs in [s]. *)
Fixpoint has_char (c : ascii) (s : string) : bool :=
  match s with
  | EmptyString => false
  | String a r => Ascii.eqb a c || has_char c r
  end.

(** The last character of [s], or [d] when [s] is empty. *)
Fixpoint last_char (s : string) (d : ascii) : ascii :=
  match s with
  | EmptyString => d
  | String c r => last_char r c
  end.

(** A text made of decimal digits only. *)
Definition is_digit (c : ascii) : bool :=
  let n := nat_of_ascii c in (48 <=? n)%nat && (n <=? 57)%nat.

Fixpoint all_digits (s : string) : bool :=
  match s with
  | EmptyString => true
  | String c r => is_digit c && all_digits r
  end.

(** The integer a decimal numeral writes after the digits read so far. *)
Fixpoint uint_value (d : Decimal.uint) (acc : Z) : Z :=
  match d with
  | Decimal.Nil => acc
  | Decimal.D0 d => uint_value d (acc * 10)
  | Decimal.D1 d => uint_value d (acc * 10 + 1)
  | Decimal.D2 d => uint_value d (acc * 10 + 2)
  | Decimal.D3 d => uint_value d (acc * 10 + 3)
  | Decimal.D4 d => uint_value d (acc * 10 + 4)
  | Decimal.D5 d => uint_value d (acc * 10 + 5)
  | Decimal.D6 d => uint_value d (acc * 10 + 6)
  | Decimal.D7 d => uint_value d (acc * 10 + 7)
  | Decimal.D8 d => uint_value d (acc * 10 + 8)
  | Decimal.D9 d => uint_value d (acc * 10 + 9)
  end%Z.

(** The answers to the probes of the services' ports, one call after the
    other from call [t] on. *)
Fixpoint probes (e : Env) (t : nat) (ss : list ServiceDescriptor) : list ExecResult :=
  match ss with
  | [] => []
  | s :: rest => sh_exec (e t) (lsof_cmd (Js.Num s.(port))) :: probes e (S t) rest
  end.

Definition probe_event (s : ServiceDescriptor) (r : ExecResult) : Event :=
  EvExec (lsof_cmd (Js.Num s.(port))) r.

(** A call that only looks at the outside: a read of the configuration or an
    inspection of a port. *)
Definition observes (ev : Event) : Prop :=
  match ev with
  | EvReadConfig _ => True
  | EvExec cmd _ => exists p, cmd = lsof_cmd p
  | _ => False
  end.

(** ** Scenarios *)

(** The descriptor of the start scenario. *)
Definition api : ServiceDescriptor :=
  {| name := "api"; port := 4000; path := "~/proj"; startCmd := "node server.js";
     type := "backend"; github := None |}.

(** A second descriptor on the same port: a misconfigured registry. *)
Definition api_twin : ServiceDescriptor :=
  {| name := "api-copy"; port := 4000; path := "~/other"; startCmd := "npm start";
     type := "frontend"; github := None |}.

Definition web : ServiceDescriptor :=
  {| name := "web"; port := 3000; path := "/srv/web"; startCmd := "npm run dev";
     type := "frontend"; github := Some "https://github.com/dev/web" |}.

Definition home : string := "/home/dev".

(** [lsof] finds no listener: it prints nothing and exits with status 1. *)
Definition lsof_silent : ExecResult :=
  {| error := Some "Command failed: lsof"; stdout := EmptyString |}.

(** [lsof] lists the owners, one process id per line. *)
Definition lsof_lists (pids : list string) : ExecResult :=
  {| error := None; stdout := String.concat EmptyString (List.map (fun p => p +:+ nl) pids) |}.

(** [lsof] prints an owner and still ends with a failure status. *)
Definition lsof_fails_after_listing : ExecResult :=
  {| error := Some "Command failed: lsof"; stdout := "4242" +:+ nl |}.

(** A world with the given configuration, directories and shell; launches
    succeed and writes go through. *)
Definition world (c : ConfigRead) (dirs : string -> bool) (sh : string -> ExecResult)
  : World :=
  {| config_file := c; fs_exists := dirs; sh_exec := sh;
     os_spawn := fun _ _ _ => Spawned 777;
     fs_write := fun _ => None;
     clock := "2024-01-01T00:00:00.000Z" |}.

(** An outside that does not change. *)
Definition always (w : World) : Env := fun _ => w.

(** A descriptor to add, on a port of its own. *)
Definition db : ServiceDescriptor :=
  {| name := "db"; port := 5432; path := "~/db"; startCmd := "docker compose up";
     type := "backend"; github := None |}.

(** A descriptor whose type is none of the three that [list_services]
    narrows by. *)
Definition pg : ServiceDescriptor :=
  {| name := "pg"; port := 5433; path := "~/pg"; startCmd := "postgres -D data";
     type := "database"; github := None |}.

(** A descriptor whose start command begins with a space: its command is the
    empty word. *)
Definition blank_start : ServiceDescriptor :=
  {| name := "blank"; port := 7000; path := "/srv/blank"; startCmd := " node app.js";
     type := "backend"; github := None |}.

(** A launcher that throws on an empty command, as [spawn] does. *)
Definition picky_spawn (cmd : string) (args : list string) (opts : SpawnOptions)
  : SpawnResult :=
  if Js.is_empty cmd then SpawnThrows "The argument 'file' cannot be empty"
  else Spawned 777.

(** A launcher whose child emits ['error']. *)
Definition failing_spawn (cmd : string) (args : list string) (opts : SpawnOptions)
  : SpawnResult :=
  SpawnError "spawn /bin/sh ENOENT".

(** The same world with another launcher. *)
Definition with_spawn (sp : string -> list string -> SpawnOptions -> SpawnResult)
  (w : World) : World :=
  {| config_file := w.(config_file); fs_exists := w.(fs_exists); sh_exec := w.(sh_exec);
     os_spawn := sp; fs_write := w.(fs_write); clock := w.(clock) |}.

(** An outside that is [w] up to call [n] and [w'] from call [n] on. *)
Definition switch_at (n : nat) (w w' : World) : Env :=
  fun t => if (t <? n)%nat then w else w'.

(** * Properties *)

(** ** Runs of composed programs *)

Lemma run_bind {A B} (e : Env) (p : Prog A) (f : A -> Prog B) : forall t,
  run e (bind p f) t =
  match run e p t with
  | (Returned a, tr) =>
      let '(o, tr') := run e (f a) (length tr + t) in (o, tr ++ tr')
  | (Thrown msg, tr) => (Thrown msg, tr)
  | (Crashed msg, tr) => (Crashed msg, tr)
  end.
Proof.
  induction p as [a|m|m|k IH|q k IH|cmd k IH|cmd args opts k IH|ms k IH|doc k IH
                  |msg k IH|k IH|key entry k IH|key k IH];
    intros t; simpl; try reflexivity;
    try (rewrite IH; clear IH;
         match goal with
         | |- context [run e ?q (S t)] =>
             destruct (run e q (S t)) as [[a|m|m] tr]; simpl; try reflexivity;
             rewrite Nat.add_succ_r; destruct (run e (f a) _); reflexivity
         end).
  destruct (run e (f a) t); reflexivity.
Qed.

Lemma run_try_catch {A} (e : Env) (p : Prog A) (h : string -> Prog A) : forall t,
  run e (try_catch p h) t =
  match run e p t with
  | (Thrown msg, tr) =>
      let '(o, tr') := run e (h msg) (length tr + t) in (o, tr ++ tr')
  | other => other
  end.
Proof.
  induction p as [a|m|m|k IH|q k IH|cmd k IH|cmd args opts k IH|ms k IH|doc k IH
                  |msg k IH|k IH|key entry k IH|key k IH];
    intros t; simpl; try reflexivity;
    try (rewrite IH; clear IH;
         match goal with
         | |- context [run e ?q (S t)] =>
             destruct (run e q (S t)) as [[a|m|m] tr]; simpl; try reflexivity;
             rewrite Nat.add_succ_r; destruct (run e (h m) _); reflexivity
         end).
  destruct (run e (h m) t); reflexivity.
Qed.

(** A program that returns without throwing, whatever the outside answers. *)
Lemma run_bind_returned {A B} (e : Env) (p : Prog A) (f : A -> B) t a tr :
  run e p t = (Returned a, tr) ->
  run e (bind p (fun x => Ret (f x))) t = (Returned (f a), tr).
Proof.
  intros H. rewrite run_bind, H. simpl. now rewrite app_nil_r.
Qed.

(** ** Strings *)

Lemma is_ws_LF : Js.is_ws Js.LF = true.
Proof. reflexivity. Qed.

Lemma trimStart_head s a r :
  Js.trimStart s = String a r -> Js.is_ws a = false.
Proof.
  induction s as [|b s IH]; simpl; [discriminate|].
  destruct (Js.is_ws b) eqn:E; [exact IH|].
  intros H. injection H as -> _. exact E.
Qed.

Lemma trimEnd_head s a r :
  Js.trimEnd s = String a r -> exists r0, s = String a r0.
Proof.
  destruct s as [|b s]; simpl; [discriminate|].
  destruct (Js.is_ws b && Js.is_empty (Js.trimEnd s)); [discriminate|].
  intros H. injection H as -> _. eauto.
Qed.

Lemma trim_head s a r : Js.trim s = String a r -> Js.is_ws a = false.
Proof.
  unfold Js.trim. intros H. apply trimEnd_head in H as [r0 H].
  eapply trimStart_head, H.
Qed.

(** The first piece of a split starts with the first character when that is
    not the separator. *)
Lemma split_head sep a r :
  Ascii.eqb a sep = false ->
  exists h, List.hd EmptyString (Js.split sep (String a r)) = String a h.
Proof.
  intros H. simpl. rewrite H. destruct (Js.split sep r); simpl; eauto.
Qed.

Lemma not_ws_not_LF a : Js.is_ws a = false -> Ascii.eqb a Js.LF = false.
Proof.
  intros H. destruct (Ascii.eqb a Js.LF) eqn:E; [|reflexivity].
  apply Ascii.eqb_eq in E. subst a. discriminate H.
Qed.

Lemma append_nil (s : string) : EmptyString +:+ s = s.
Proof. reflexivity. Qed.

Lemma append_cons (a : ascii) (s r : string) : String a s +:+ r = String a (s +:+ r).
Proof. reflexivity. Qed.

Lemma trimStart_no_ws p rest :
  p <> EmptyString -> no_ws p = true -> Js.trimStart (p +:+ rest) = p +:+ rest.
Proof.
  destruct p as [|a p]; [congruence|]. intros _ H. simpl in H.
  apply andb_true_iff in H as [H _]. apply negb_true_iff in H.
  rewrite append_cons. simpl. now rewrite H.
Qed.

Lemma trimEnd_no_ws p rest :
  no_ws p = true ->
  Js.trimEnd (p +:+ String Js.LF rest) = p
  \/ exists r', Js.trimEnd (p +:+ String Js.LF rest) = p +:+ String Js.LF r'.
Proof.
  induction p as [|a p IH]; intros H.
  - rewrite append_nil. cbn [Js.trimEnd].
    destruct (Js.is_ws Js.LF && Js.is_empty (Js.trimEnd rest)); eauto.
  - simpl in H. apply andb_true_iff in H as [Ha Hp]. apply negb_true_iff in Ha.
    rewrite append_cons. cbn [Js.trimEnd]. rewrite Ha. cbn [andb].
    destruct (IH Hp) as [-> | [r' ->]]; [left|right; exists r']; reflexivity.
Qed.

Lemma split_first_piece p :
  no_ws p = true ->
  List.hd EmptyString (Js.split Js.LF p) = p
  /\ forall r, List.hd EmptyString (Js.split Js.LF (p +:+ String Js.LF r)) = p.
Proof.
  induction p as [|a p IH]; intros H.
  - split; [reflexivity|]. intros r. rewrite append_nil. reflexivity.
  - simpl in H. apply andb_true_iff in H as [Ha Hp]. apply negb_true_iff in Ha.
    apply not_ws_not_LF in Ha. destruct (IH Hp) as [IH1 IH2]. split.
    + simpl. rewrite Ha. destruct (Js.split Js.LF p); simpl in *; congruence.
    + intros r. rewrite append_cons. cbn [Js.split]. rewrite Ha. specialize (IH2 r).
      destruct (Js.split Js.LF (p +:+ String Js.LF r)); simpl in *; congruence.
Qed.

(** What both probes read off an output whose first line is [p]. *)
Lemma first_line_of_output p rest :
  p <> EmptyString -> no_ws p = true ->
  Js.is_empty (Js.trim (p +:+ String Js.LF rest)) = false
  /\ List.hd EmptyString (Js.split Js.LF (Js.trim (p +:+ String Js.LF rest))) = p.
Proof.
  intros Hne Hp. unfold Js.trim. rewrite (trimStart_no_ws _ _ Hne Hp).
  destruct (split_first_piece p Hp) as [S1 S2].
  destruct (trimEnd_no_ws p rest Hp) as [-> | [r' ->]].
  - split; [destruct p; [congruence|reflexivity] | exact S1].
  - split; [destruct p; reflexivity | apply S2].
Qed.

(** ** The status aggregator *)

Lemma run_probe_all (e : Env) (ss : list ServiceDescriptor) : forall t,
  exists views tr,
    run e (promise_all_map Mcp.service_status ss) t = (Returned views, tr)
    /\ Forall2 view_of ss views.
Proof.
  induction ss as [|s ss IH]; intros t.
  - exists [], []. split; [reflexivity | constructor].
  - destruct (IH (S t)) as (views & tr & Hrun & Hviews).
    eexists (_ :: views), (_ :: tr). split.
    + cbn [promise_all_map]. rewrite run_bind.
      change (run e (Mcp.service_status s) t)
        with (Returned (Mcp.service_view s
                          (Mcp.port_status (sh_exec (e t) (lsof_cmd (Js.Num s.(port)))))),
              [EvExec (lsof_cmd (Js.Num s.(port)))
                      (sh_exec (e t) (lsof_cmd (Js.Num s.(port))))]).
      cbn [length Nat.add]. rewrite run_bind, Hrun. cbn. now rewrite app_nil_r.
    + constructor; [eexists; reflexivity | exact Hviews].
Qed.

Lemma run_getAllServicesStatus (e : Env) (t : nat) :
  exists views tr,
    run e Mcp.getAllServicesStatus t = (Returned views, tr)
    /\ Forall2 view_of (registry_of (config_file (e t))) views.
Proof.
  unfold Mcp.getAllServicesStatus, Mcp.loadServices. cbn [bind run].
  destruct (run_probe_all e (registry_of (config_file (e t))) (S t))
    as (views & tr & Hrun & Hviews).
  exists views, (EvReadConfig (config_file (e t)) :: tr). split; [|exact Hviews].
  destruct (config_file (e t)); cbn [bind registry_of] in *; now rewrite Hrun.
Qed.

Lemma run_getAll (e : Env) (t : nat) (f : option string) views tr :
  run e Mcp.getAllServicesStatus t = (Returned views, tr) ->
  run e (Mcp.getAll f) t = (Returned (Mcp.narrow (Mcp.filter_or_all f) views), tr).
Proof.
  intros H. unfold Mcp.getAll.
  exact (run_bind_returned e _ (Mcp.narrow (Mcp.filter_or_all f)) t views tr H).
Qed.

Lemma filter_sublist {A} (f : A -> bool) (l : list A) : sublist (List.filter f l) l.
Proof.
  induction l as [|a l IH]; simpl; [constructor|].
  destruct (f a); now constructor.
Qed.

Lemma filter_split_perm {A} (f : A -> bool) (l : list A) :
  Permutation (List.filter f l ++ List.filter (fun x => negb (f x)) l) l.
Proof.
  induction l as [|a l IH]; simpl; [constructor|].
  destruct (f a); simpl.
  - now constructor.
  - rewrite <- Permutation_middle. now constructor.
Qed.

Lemma narrow_type_tag (f : string) (views : list Mcp.ServiceView) :
  In f Mcp.type_tags ->
  Mcp.narrow f views = List.filter (fun v => String.eqb v.(Mcp.view_type) f) views.
Proof.
  intros [<- | [<- | [<- | []]]]; reflexivity.
Qed.

Lemma narrow_unrecognised (f : string) (views : list Mcp.ServiceView) :
  ~ In f narrowing_filters -> Mcp.narrow f views = views.
Proof.
  intros H. unfold Mcp.narrow.
  destruct (String.eqb f "running") eqn:E1;
    [apply String.eqb_eq in E1; subst f; exfalso; apply H; simpl; tauto|].
  destruct (String.eqb f "stopped") eqn:E2;
    [apply String.eqb_eq in E2; subst f; exfalso; apply H; simpl; tauto|].
  destruct (existsb (String.eqb f) Mcp.type_tags) eqn:E3; [|reflexivity].
  apply existsb_exists in E3 as (x & Hx & E). apply String.eqb_eq in E. subst x.
  exfalso. apply H. unfold narrowing_filters. apply in_or_app. now right.
Qed.

(** C3. For any registry and any probe outcomes, the views that
    [list_services] keeps under the filter "running" and those it keeps under
    "stopped" partition the views it keeps under "all" (which is also the
    default): together they are a rearrangement of all the views, each keeps
    the load order, every view is in one of them and none is in both. *)
Theorem C3_running_stopped_partition_all : forall (e : Env) (t : nat),
  exists (all rs ss : list Mcp.ServiceView) (tr : list Event),
    run e (Mcp.getAll (Some "all")) t = (Returned all, tr)
    /\ run e (Mcp.getAll None) t = (Returned all, tr)
    /\ run e (Mcp.getAll (Some "running")) t = (Returned rs, tr)
    /\ run e (Mcp.getAll (Some "stopped")) t = (Returned ss, tr)
    /\ Forall2 view_of (registry_of (config_file (e t))) all
    /\ Permutation (rs ++ ss) all
    /\ sublist rs all /\ sublist ss all
    /\ (forall v, In v all <-> In v rs \/ In v ss)
    /\ (forall v, ~ (In v rs /\ In v ss))
    /\ length rs + length ss = length all.
Proof.
  intros e t. destruct (run_getAllServicesStatus e t) as (views & tr & Hrun & Hviews).
  exists views, (List.filter (fun s => s.(Mcp.view_running)) views),
    (List.filter (fun s => negb s.(Mcp.view_running)) views), tr.
  split; [exact (run_getAll e t _ views tr Hrun)|].
  split; [exact (run_getAll e t _ views tr Hrun)|].
  split; [exact (run_getAll e t _ views tr Hrun)|].
  split; [exact (run_getAll e t _ views tr Hrun)|].
  split; [exact Hviews|].
  split; [apply filter_split_perm|].
  split; [apply filter_sublist|].
  split; [apply filter_sublist|].
  split; [|split].
  - intros v. rewrite !filter_In. destruct (Mcp.view_running v); simpl; intuition congruence.
  - intros v [H1 H2]. apply filter_In in H1 as [_ H1]. apply filter_In in H2 as [_ H2].
    rewrite H1 in H2. discriminate.
  - rewrite <- length_app. apply Permutation_length, filter_split_perm.
Qed.

(** C4, as stated, fails: a type tag is matched against the three the
    handler lists, not against the types the registry holds.  With a
    descriptor of type "database" and one of type "frontend" in the
    registry, the filter "database" is the type of a descriptor, and the
    listing keeps both views, the second of another type. *)
Lemma C4_counterexample_type_outside_the_listed_tags :
  let e := always (world (Parsed {| services := [pg; web] |}) (fun _ => true)
                         (fun _ => lsof_silent)) in
  In "database" (List.map type [pg; web])
  /\ exists kept : list Mcp.ServiceView,
       fst (run e (Mcp.getAll (Some "database")) 0) = Returned kept
       /\ List.map (fun v => (v.(Mcp.view_name), v.(Mcp.view_type))) kept
          = [("pg", "database"); ("web", "frontend")]
       /\ ~ List.Forall (fun v => v.(Mcp.view_type) = "database") kept.
Proof.
  cbv zeta. split; [left; reflexivity|].
  eexists. split; [vm_compute; reflexivity|].
  split; [reflexivity|].
  intros H. apply List.Forall_inv_tail, List.Forall_inv in H. discriminate H.
Qed.

(** C4, as amended. For every registry and every filter value: under one
    of the type tags the handler lists ("frontend", "backend" or "api")
    [list_services] keeps exactly the views whose [type] is the tag, in load
    order, and the [type] of a view is the [type] of its descriptor; under a
    filter value that is none of "running", "stopped" and these tags, the
    type of a descriptor or not, it keeps every view, as under "all". *)
Theorem C4_type_tag_and_unrecognised_filter : forall (e : Env) (t : nat) (f : string),
  exists (all kept : list Mcp.ServiceView) (tr : list Event),
    run e (Mcp.getAll (Some "all")) t = (Returned all, tr)
    /\ run e (Mcp.getAll (Some f)) t = (Returned kept, tr)
    /\ Forall2 (fun s v => v.(Mcp.view_type) = s.(type) /\ view_of s v)
         (registry_of (config_file (e t))) all
    /\ (In f Mcp.type_tags ->
        kept = List.filter (fun v => String.eqb v.(Mcp.view_type) f) all
        /\ sublist kept all
        /\ forall v, In v kept <-> In v all /\ v.(Mcp.view_type) = f)
    /\ (~ In f narrowing_filters -> kept = all).
Proof.
  intros e t f. destruct (run_getAllServicesStatus e t) as (views & tr & Hrun & Hviews).
  exists views, (Mcp.narrow (Mcp.filter_or_all (Some f)) views), tr.
  split; [exact (run_getAll e t _ views tr Hrun)|].
  split; [exact (run_getAll e t _ views tr Hrun)|].
  split.
  { eapply Forall2_impl; [exact Hviews|]. intros s v [r ->]. split; [reflexivity|].
    now exists r. }
  split.
  - intros Hf. assert (Hne : Mcp.filter_or_all (Some f) = f).
    { destruct Hf as [<- | [<- | [<- | []]]]; reflexivity. }
    rewrite Hne, (narrow_type_tag f views Hf). split; [reflexivity|].
    split; [apply filter_sublist|].
    intros v. rewrite filter_In, String.eqb_eq. tauto.
  - intros Hf. simpl. destruct f as [|a f]; [reflexivity|].
    simpl. now apply narrow_unrecognised.
Qed.

(** ** The registry *)

Lemma strict_eq_true (a : Z) (p : Js.num) : Js.strict_eq a p = true <-> p = Js.Num a.
Proof.
  destruct p as [z|]; simpl; [|split; discriminate].
  rewrite Z.eqb_eq. split; [intros ->; reflexivity | intros H; now injection H].
Qed.

Lemma find_first {A} (f : A -> bool) (l : list A) :
  match List.find f l with
  | Some d =>
      exists before after,
        l = before ++ d :: after /\ f d = true /\ Forall (fun x => f x = false) before
  | None => Forall (fun x => f x = false) l
  end.
Proof.
  induction l as [|a l IH]; simpl; [constructor|].
  destruct (f a) eqn:E.
  - exists [], l. repeat split; [exact E | constructor].
  - destruct (List.find f l) as [d|].
    + destruct IH as (before & after & -> & Hd & Hb).
      exists (a :: before), after. repeat split; [exact Hd | now constructor].
    + now constructor.
Qed.

Lemma find_skips {A} (f : A -> bool) (before : list A) (d : A) (after : list A) :
  Forall (fun x => f x = false) before -> f d = true ->
  List.find f (before ++ d :: after) = Some d.
Proof.
  induction 1 as [|a before Ha _ IH]; intros Hd; simpl.
  - now rewrite Hd.
  - rewrite Ha. now apply IH.
Qed.

(** C5. For every registry and every port, the lookup by port returns the
    first descriptor, in load order, whose [port] equals the argument, and
    nothing when no descriptor has that port; when several descriptors share
    the port it still returns the first of them. *)
Theorem C5_lookup_returns_first_match :
  forall (registry : list ServiceDescriptor) (p : Js.num),
    match services_find registry p with
    | Some d =>
        exists before after,
          registry = before ++ d :: after
          /\ p = Js.Num d.(port)
          /\ Forall (fun s => p <> Js.Num s.(port)) before
    | None => Forall (fun s => p <> Js.Num s.(port)) registry
    end
    /\ (forall before d after,
          Forall (fun s => p <> Js.Num s.(port)) before ->
          p = Js.Num d.(port) ->
          registry = before ++ d :: after ->
          services_find registry p = Some d).
Proof.
  intros registry p. unfold services_find.
  assert (Hno : forall l, Forall (fun s => Js.strict_eq (port s) p = false) l
                          <-> Forall (fun s => p <> Js.Num (port s)) l).
  { intros l. apply Forall_iff. intros s. rewrite <- strict_eq_true.
    destruct (Js.strict_eq (port s) p); split; congruence. }
  split.
  - pose proof (find_first (fun s => Js.strict_eq (port s) p) registry) as H.
    destruct (List.find _ registry) as [d|].
    + destruct H as (before & after & -> & Hd & Hb). exists before, after.
      split; [reflexivity|]. split; [now apply strict_eq_true | now apply Hno].
    + now apply Hno.
  - intros before d after Hb Hd ->. apply find_skips.
    + now apply Hno.
    + now apply strict_eq_true.
Qed.

Lemma C5_lookup_returns_first_match_witness :
  services_find [web; api; api_twin] (Js.Num 4000) = Some api.
Proof.
  apply (proj2 (C5_lookup_returns_first_match [web; api; api_twin] (Js.Num 4000))
           [web] api [api_twin]).
  - constructor; [discriminate | constructor].
  - reflexivity.
  - reflexivity.
Defined.

(** ** The port prober *)

Lemma mcp_port_status_blank (r : ExecResult) :
  Js.trim r.(stdout) = EmptyString ->
  Mcp.port_status r = {| running := false; pid := None |}.
Proof. intros H. unfold Mcp.port_status. now rewrite H. Qed.

Lemma http_port_status_blank (r : ExecResult) :
  Js.trim r.(stdout) = EmptyString ->
  Http.port_status r = {| running := false; pid := None |}.
Proof. intros H. unfold Http.port_status. now rewrite H. Qed.

Lemma mcp_port_status_owner (r : ExecResult) (p rest : string) :
  p <> EmptyString -> no_ws p = true -> r.(stdout) = p +:+ String Js.LF rest ->
  Mcp.port_status r = {| running := true; pid := Some p |}.
Proof.
  intros Hne Hp Hout. unfold Mcp.port_status. rewrite Hout.
  destruct (first_line_of_output p rest Hne Hp) as [-> ->].
  destruct p; [congruence | reflexivity].
Qed.

Lemma http_port_status_owner (r : ExecResult) (p rest : string) :
  p <> EmptyString -> no_ws p = true -> r.(stdout) = p +:+ String Js.LF rest ->
  Http.port_status r = {| running := true; pid := Some p |}.
Proof.
  intros Hne Hp Hout. unfold Http.port_status. rewrite Hout.
  destruct (first_line_of_output p rest Hne Hp) as [-> ->]. reflexivity.
Qed.

Lemma port_status_agree (r : ExecResult) : Http.port_status r = Mcp.port_status r.
Proof.
  unfold Http.port_status, Mcp.port_status.
  destruct (Js.trim (stdout r)) as [|a out] eqn:E; [reflexivity|].
  cbn [Js.is_empty negb]. f_equal.
  pose proof (trim_head _ _ _ E) as Ha. apply not_ws_not_LF in Ha.
  destruct (split_head Js.LF a out Ha) as [h ->]. reflexivity.
Qed.

(** C6, as amended. A probe runs the inspection once and always resolves
    to a status; both servers read the same status off the inspection, and
    the status follows the inspection's output alone, whatever error the
    inspection reports: on a blank output (no listener bound, or an
    inspection that fails without listing anything) it is [running = false]
    with no pid, and on an output whose first line is a process id it is
    [running = true] with that pid, the first owner reported. *)
Theorem C6_probe_status_follows_output : forall (e : Env) (t : nat) (p : Js.num),
  let r := sh_exec (e t) (lsof_cmd p) in
  run e (Mcp.checkPort p) t = (Returned (Mcp.port_status r), [EvExec (lsof_cmd p) r])
  /\ run e (Http.checkPort p) t = (Returned (Http.port_status r), [EvExec (lsof_cmd p) r])
  /\ Http.port_status r = Mcp.port_status r
  /\ (forall err, Mcp.port_status {| error := err; stdout := r.(stdout) |}
                  = Mcp.port_status r)
  /\ (Js.trim r.(stdout) = EmptyString ->
      Mcp.port_status r = {| running := false; pid := None |})
  /\ (forall owner rest,
        owner <> EmptyString -> no_ws owner = true ->
        r.(stdout) = owner +:+ String Js.LF rest ->
        Mcp.port_status r = {| running := true; pid := Some owner |}).
Proof.
  intros e t p r.
  split; [reflexivity|]. split; [reflexivity|].
  split; [apply port_status_agree|].
  split; [reflexivity|].
  split; [apply mcp_port_status_blank|].
  intros owner rest. apply mcp_port_status_owner.
Qed.

Lemma C6_probe_status_follows_output_witness :
  Mcp.port_status lsof_silent = {| running := false; pid := None |}
  /\ Mcp.port_status (lsof_lists ["4242"; "977"]) = {| running := true; pid := Some "4242" |}.
Proof.
  split.
  - apply (C6_probe_status_follows_output
             (always (world (Parsed {| services := [api] |}) (fun _ => true)
                            (fun _ => lsof_silent))) 0 (Js.Num 4000)).
    reflexivity.
  - apply (C6_probe_status_follows_output
             (always (world (Parsed {| services := [api] |}) (fun _ => true)
                            (fun _ => lsof_lists ["4242"; "977"]))) 0 (Js.Num 4000))
      with (rest := "977" +:+ nl).
    + discriminate.
    + reflexivity.
    + reflexivity.
Defined.

(** C6, as stated, fails: an inspection that lists an owner and then ends
    with a failure status is a failed inspection, and both probes report the
    port as running. *)
Lemma C6_counterexample_failed_inspection_reported_running :
  let w := world (Parsed {| services := [api] |}) (fun _ => true)
                 (fun _ => lsof_fails_after_listing) in
  (sh_exec w (lsof_cmd (Js.Num 4000))).(error) <> None
  /\ run (always w) (Mcp.checkPort (Js.Num 4000)) 0
     = (Returned {| running := true; pid := Some "4242" |},
        [EvExec "lsof -i :4000 -t" lsof_fails_after_listing])
  /\ run (always w) (Http.checkPort (Js.Num 4000)) 0
     = (Returned {| running := true; pid := Some "4242" |},
        [EvExec "lsof -i :4000 -t" lsof_fails_after_listing]).
Proof.
  cbv zeta. split; [discriminate|]. split; reflexivity.
Qed.

(** ** The lifecycle controller *)

Lemma run_mcp_load {A} (e : Env) (t : nat) (f : list ServiceDescriptor -> Prog A) :
  run e (services <- Mcp.loadServices ;; f services) t =
  let '(o, tr) := run e (f (registry_of (config_file (e t)))) (S t) in
  (o, EvReadConfig (config_file (e t)) :: tr).
Proof.
  unfold Mcp.loadServices. cbn [bind run].
  destruct (config_file (e t)); reflexivity.
Qed.

Lemma run_http_load {A} (e : Env) (t : nat) (f : list ServiceDescriptor -> Prog A) doc :
  config_file (e t) = Parsed doc ->
  run e (services <- Http.loadServices ;; f services) t =
  let '(o, tr) := run e (f doc.(services)) (S t) in
  (o, EvReadConfig (Parsed doc) :: tr).
Proof.
  intros H. unfold Http.loadServices. cbn [bind run]. now rewrite H.
Qed.

Lemma registry_parsed (c : ConfigRead) (p : Js.num) (s : ServiceDescriptor) :
  services_find (registry_of c) p = Some s ->
  exists doc, c = Parsed doc /\ services_find doc.(services) p = Some s.
Proof.
  destruct c as [m|m|doc]; simpl; try discriminate. eauto.
Qed.

(** The tool handlers on top of a controller call that returns. *)
Lemma run_start_service_tool HOME penv (e : Env) (t : nat) (args : Mcp.ToolArgs) r tr :
  run e (Mcp.startService HOME penv args.(Mcp.arg_port)) t = (Returned r, tr) ->
  run e (Mcp.call_tool HOME penv "start_service" args) t
  = (Returned (Mcp.ok_text (Mcp.start_text args r)), tr).
Proof.
  intros H.
  change (Mcp.call_tool HOME penv "start_service" args)
    with (try_catch (Mcp.start_service HOME penv args)
            (fun msg => Ret {| Mcp.text := "Error: " +:+ msg; Mcp.isError := true |})).
  rewrite run_try_catch. unfold Mcp.start_service.
  now rewrite (run_bind_returned e _ (fun r => Mcp.ok_text (Mcp.start_text args r)) t r tr H).
Qed.

Lemma run_stop_service_tool HOME penv (e : Env) (t : nat) (args : Mcp.ToolArgs) r tr :
  run e (Mcp.stopService args.(Mcp.arg_port)) t = (Returned r, tr) ->
  run e (Mcp.call_tool HOME penv "stop_service" args) t
  = (Returned (Mcp.ok_text (Mcp.stop_text r)), tr).
Proof.
  intros H.
  change (Mcp.call_tool HOME penv "stop_service" args)
    with (try_catch (Mcp.stop_service args)
            (fun msg => Ret {| Mcp.text := "Error: " +:+ msg; Mcp.isError := true |})).
  rewrite run_try_catch. unfold Mcp.stop_service.
  now rewrite (run_bind_returned e _ (fun r => Mcp.ok_text (Mcp.stop_text r)) t r tr H).
Qed.

Lemma mcp_start_unknown HOME penv (e : Env) (t : nat) (p : Js.num) :
  services_find (registry_of (config_file (e t))) p = None ->
  run e (Mcp.startService HOME penv p) t
  = (Returned (Mcp.StartFailed ("No service configured for port " +:+ Js.toString p)),
     [EvReadConfig (config_file (e t))]).
Proof.
  intros H. unfold Mcp.startService. rewrite run_mcp_load, H. reflexivity.
Qed.

Lemma mcp_start_no_directory HOME penv (e : Env) (t : nat) (p : Js.num) s :
  services_find (registry_of (config_file (e t))) p = Some s ->
  fs_exists (e (S t)) (Mcp.expandPath HOME s.(path)) = false ->
  run e (Mcp.startService HOME penv p) t
  = (Returned (Mcp.StartFailed ("Directory not found: " +:+ Mcp.expandPath HOME s.(path))),
     [EvReadConfig (config_file (e t));
      EvExistsSync (Mcp.expandPath HOME s.(path)) false]).
Proof.
  intros H Hdir. unfold Mcp.startService. rewrite run_mcp_load, H.
  cbn [run]. rewrite Hdir. reflexivity.
Qed.

Lemma http_start_unknown HOME penv (e : Env) (t : nat) (p : Js.num) doc :
  config_file (e t) = Parsed doc ->
  services_find doc.(services) p = None ->
  run e (Http.post_start HOME penv p) t
  = (Returned {| Http.statusCode := 404; Http.body := Http.BodyError "Service not found" |},
     [EvReadConfig (Parsed doc)]).
Proof.
  intros Hc H. unfold Http.post_start. rewrite (run_http_load e t _ doc Hc), H. reflexivity.
Qed.

Lemma http_start_no_directory HOME penv (e : Env) (t : nat) (p : Js.num) doc s :
  config_file (e t) = Parsed doc ->
  services_find doc.(services) p = Some s ->
  fs_exists (e (S t)) (Http.expandPath HOME s.(path)) = false ->
  run e (Http.post_start HOME penv p) t
  = (Returned {| Http.statusCode := 500;
                 Http.body := Http.BodyError ("Directory not found: "
                                              +:+ Http.expandPath HOME s.(path)) |},
     [EvReadConfig (Parsed doc); EvExistsSync (Http.expandPath HOME s.(path)) false]).
Proof.
  intros Hc H Hdir. unfold Http.post_start. rewrite (run_http_load e t _ doc Hc), H.
  rewrite run_try_catch, run_bind. unfold Http.startService. cbn [run].
  rewrite Hdir. reflexivity.
Qed.

(** C7. For every port without a configured descriptor, start fails with
    "no service configured" on the tool-call server and with 404 "Service not
    found" on the HTTP server; for every configured descriptor whose expanded
    path does not exist, start fails with "Directory not found" on both.  In
    each case the trace of the call holds the read of the configuration and
    at most the directory check: no process is spawned. *)
Theorem C7_start_fails_without_descriptor_or_directory :
  forall (HOME : string) (penv : gmap string string) (e : Env) (t : nat)
         (args : Mcp.ToolArgs),
    let p := args.(Mcp.arg_port) in
    let c := config_file (e t) in
    (services_find (registry_of c) p = None ->
       let failure := "No service configured for port " +:+ Js.toString p in
       run e (Mcp.startService HOME penv p) t
       = (Returned (Mcp.StartFailed failure), [EvReadConfig c])
       /\ run e (Mcp.call_tool HOME penv "start_service" args) t
          = (Returned {| Mcp.text := "❌ Failed: " +:+ failure; Mcp.isError := false |},
             [EvReadConfig c])
       /\ forall doc, c = Parsed doc ->
            run e (Http.post_start HOME penv p) t
            = (Returned {| Http.statusCode := 404;
                           Http.body := Http.BodyError "Service not found" |},
               [EvReadConfig c]))
    /\ (forall s,
          services_find (registry_of c) p = Some s ->
          let dir := Mcp.expandPath HOME s.(path) in
          fs_exists (e (S t)) dir = false ->
          let failure := "Directory not found: " +:+ dir in
          let tr := [EvReadConfig c; EvExistsSync dir false] in
          spawns tr = 0%nat
          /\ run e (Mcp.startService HOME penv p) t = (Returned (Mcp.StartFailed failure), tr)
          /\ run e (Mcp.call_tool HOME penv "start_service" args) t
             = (Returned {| Mcp.text := "❌ Failed: " +:+ failure; Mcp.isError := false |}, tr)
          /\ run e (Http.post_start HOME penv p) t
             = (Returned {| Http.statusCode := 500; Http.body := Http.BodyError failure |},
                tr)).
Proof.
  intros HOME penv e t args p c. split.
  - intros H failure.
    pose proof (mcp_start_unknown HOME penv e t p H) as Hm.
    split; [exact Hm|]. split.
    + exact (run_start_service_tool HOME penv e t args _ _ Hm).
    + intros doc Hc. subst c. rewrite Hc in *. now apply http_start_unknown.
  - intros s H dir Hdir failure tr.
    pose proof (mcp_start_no_directory HOME penv e t p s H Hdir) as Hm.
    split; [reflexivity|]. split; [exact Hm|]. split.
    + exact (run_start_service_tool HOME penv e t args _ _ Hm).
    + destruct (registry_parsed _ _ _ H) as (doc & Hc & Hf). subst c tr. rewrite Hc.
      now apply http_start_no_directory.
Qed.

Lemma C7_start_fails_without_descriptor_or_directory_witness :
  let w := world (Parsed {| services := [api] |}) (fun _ => false) (fun _ => lsof_silent) in
  fst (run (always w) (Mcp.startService home ∅ (Js.Num 5000)) 0)
  = Returned (Mcp.StartFailed "No service configured for port 5000")
  /\ fst (run (always w) (Http.post_start home ∅ (Js.Num 4000)) 0)
     = Returned {| Http.statusCode := 500;
                   Http.body := Http.BodyError "Directory not found: /home/dev/proj" |}.
Proof.
  intros w. split.
  - destruct (C7_start_fails_without_descriptor_or_directory home ∅ (always w) 0
                {| Mcp.arg_filter := None; Mcp.arg_port := Js.Num 5000 |}) as [H _].
    destruct (H eq_refl) as [Hm _]. exact (f_equal fst Hm).
  - destruct (C7_start_fails_without_descriptor_or_directory home ∅ (always w) 0
                {| Mcp.arg_filter := None; Mcp.arg_port := Js.Num 4000 |}) as [_ H].
    destruct (H api eq_refl eq_refl) as (_ & _ & _ & Hh). exact (f_equal fst Hh).
Defined.

Lemma append_inj_l (s a b : string) : s +:+ a = s +:+ b -> a = b.
Proof.
  induction s as [|c s IH]; [trivial|].
  rewrite !append_cons. intros H. injection H as H. now apply IH.
Qed.

Lemma lsof_is_not_kill (p : Js.num) : String.eqb (lsof_cmd p) (kill_cmd p) = false.
Proof.
  apply String.eqb_neq. unfold lsof_cmd, kill_cmd. intros H.
  apply append_inj_l, append_inj_l in H. discriminate H.
Qed.

Lemma mcp_stop_unbound (e : Env) (t : nat) (p : Js.num) :
  (Mcp.port_status (sh_exec (e t) (lsof_cmd p))).(running) = false ->
  run e (Mcp.stopService p) t
  = (Returned (Mcp.StopFailed ("Nothing running on port " +:+ Js.toString p)),
     [EvExec (lsof_cmd p) (sh_exec (e t) (lsof_cmd p))]).
Proof.
  intros H. unfold Mcp.stopService, Mcp.checkPort. cbn [bind run].
  rewrite H. reflexivity.
Qed.

(** The HTTP server's stop does not probe: for every port it issues the
    termination command and answers success. *)
Lemma http_stop_always_kills (e : Env) (t : nat) (p : Js.num) :
  let tr := [EvExec (kill_cmd p) (sh_exec (e t) (kill_cmd p)); EvProcDelete p] in
  kills p tr = 1%nat
  /\ run e (Http.post_stop p) t
     = (Returned {| Http.statusCode := 200; Http.body := Http.BodySuccess |}, tr).
Proof.
  intros tr. split; [|reflexivity].
  unfold kills, tr. cbn [List.filter]. now rewrite String.eqb_refl.
Qed.

(** C2, as amended. On the tool-call server, for every port whose probe
    reports no owner, stop answers "Nothing running" and its only call to the
    outside is that probe: no termination command is issued. *)
Theorem C2_stop_on_unbound_port :
  forall (HOME : string) (penv : gmap string string) (e : Env) (t : nat)
         (args : Mcp.ToolArgs),
    let p := args.(Mcp.arg_port) in
    let probe := sh_exec (e t) (lsof_cmd p) in
    (Mcp.port_status probe).(running) = false ->
    let failure := "Nothing running on port " +:+ Js.toString p in
    let tr := [EvExec (lsof_cmd p) probe] in
    kills p tr = 0%nat
    /\ run e (Mcp.stopService p) t = (Returned (Mcp.StopFailed failure), tr)
    /\ run e (Mcp.call_tool HOME penv "stop_service" args) t
       = (Returned {| Mcp.text := "❌ " +:+ failure; Mcp.isError := false |}, tr).
Proof.
  intros HOME penv e t args p probe H failure tr.
  pose proof (mcp_stop_unbound e t p H) as Hm.
  split; [unfold kills, tr; cbn [List.filter]; now rewrite lsof_is_not_kill|].
  split; [exact Hm|].
  exact (run_stop_service_tool HOME penv e t args _ _ Hm).
Qed.

Lemma C2_stop_on_unbound_port_witness :
  let w := world (Parsed {| services := [api] |}) (fun _ => true) (fun _ => lsof_silent) in
  run (always w) (Mcp.stopService (Js.Num 4000)) 0
  = (Returned (Mcp.StopFailed "Nothing running on port 4000"),
     [EvExec "lsof -i :4000 -t" lsof_silent]).
Proof.
  intros w.
  destruct (C2_stop_on_unbound_port home ∅ (always w) 0
              {| Mcp.arg_filter := None; Mcp.arg_port := Js.Num 4000 |} eq_refl)
    as (_ & Hm & _).
  exact Hm.
Defined.

(** C2, as stated, fails on the HTTP server: with no process bound to port
    4000, stop issues the termination command and answers success. *)
Lemma C2_counterexample_http_stop_kills_unprobed :
  let w := world (Parsed {| services := [api] |}) (fun _ => true) (fun _ => lsof_silent) in
  (Mcp.port_status (sh_exec w (lsof_cmd (Js.Num 4000)))).(running) = false
  /\ run (always w) (Http.post_stop (Js.Num 4000)) 0
     = (Returned {| Http.statusCode := 200; Http.body := Http.BodySuccess |},
        [EvExec "lsof -i :4000 -t | xargs kill -9 2>/dev/null" lsof_silent;
         EvProcDelete (Js.Num 4000)]).
Proof.
  cbv zeta. split; reflexivity.
Qed.

Lemma mcp_start_already_running HOME penv (e : Env) (t : nat) (p : Js.num) s owner :
  services_find (registry_of (config_file (e t))) p = Some s ->
  fs_exists (e (S t)) (Mcp.expandPath HOME s.(path)) = true ->
  Mcp.port_status (sh_exec (e (S (S t))) (lsof_cmd p))
  = {| running := true; pid := Some owner |} ->
  run e (Mcp.startService HOME penv p) t
  = (Returned (Mcp.StartFailed ("Port " +:+ Js.toString p +:+ " already in use (pid: "
                                +:+ owner +:+ ")")),
     [EvReadConfig (config_file (e t));
      EvExistsSync (Mcp.expandPath HOME s.(path)) true;
      EvExec (lsof_cmd p) (sh_exec (e (S (S t))) (lsof_cmd p))]).
Proof.
  intros H Hdir Hprobe. unfold Mcp.startService. rewrite run_mcp_load, H.
  cbn [run]. rewrite Hdir. cbn [negb Mcp.checkPort bind run]. rewrite Hprobe.
  reflexivity.
Qed.

(** The HTTP start once the descriptor is found and its directory exists: the
    command is launched, and no command line is handed to the shell. *)
Lemma http_start_spawns HOME penv (e : Env) (t : nat) (p : Js.num) doc s :
  config_file (e t) = Parsed doc ->
  services_find doc.(services) p = Some s ->
  fs_exists (e (S t)) (Http.expandPath HOME s.(path)) = true ->
  let dir := Http.expandPath HOME s.(path) in
  let cmd := fst (parse_startCmd s.(startCmd)) in
  let args := snd (parse_startCmd s.(startCmd)) in
  let opts := {| cwd := dir; shell := true; detached := true; stdio := StdioPiped;
                 env := <["PORT" := Js.toString (Js.Num s.(port))]> penv |} in
  let child := os_spawn (e (3 + t)%nat) cmd args opts in
  exists o rest,
    run e (Http.post_start HOME penv p) t
    = (o, [EvReadConfig (Parsed doc); EvExistsSync dir true;
           EvConsoleLog ("Starting " +:+ s.(name) +:+ " in " +:+ dir +:+ ": "
                         +:+ s.(startCmd));
           EvSpawn cmd args opts child] ++ rest)
    /\ execs rest = 0%nat /\ spawns rest = 0%nat
    /\ forall child_pid, child = Spawned child_pid ->
         o = Returned {| Http.statusCode := 200; Http.body := Http.BodyStarted child_pid |}.
Proof.
  intros Hc H Hdir dir cmd args opts child. subst dir cmd args opts child.
  cbn [Nat.add parse_startCmd fst snd].
  unfold Http.post_start. rewrite (run_http_load e t _ doc Hc), H.
  rewrite run_try_catch, run_bind. unfold Http.startService.
  cbn [run]. rewrite Hdir. cbn [negb parse_startCmd run].
  destruct (os_spawn _ _ _ _) as [msg|msg|child_pid].
  - eexists _, []. cbn. split; [reflexivity|]. repeat split. discriminate.
  - eexists _, [_; _; _]. cbn. split; [reflexivity|]. repeat split. discriminate.
  - eexists _, [_; _; _]. cbn. split; [reflexivity|]. repeat split.
    intros ? [= <-]. reflexivity.
Qed.

(** C1, as amended. On the tool-call server, for every configured port
    whose descriptor's expanded path exists and whose probe reports an owner,
    start fails with "already in use", carrying the pid the probe reports,
    and spawns no process. *)
Theorem C1_start_on_bound_port :
  forall (HOME : string) (penv : gmap string string) (e : Env) (t : nat)
         (args : Mcp.ToolArgs) (s : ServiceDescriptor) (owner : string),
    let p := args.(Mcp.arg_port) in
    let c := config_file (e t) in
    let dir := Mcp.expandPath HOME s.(path) in
    let probe := sh_exec (e (2 + t)%nat) (lsof_cmd p) in
    services_find (registry_of c) p = Some s ->
    fs_exists (e (1 + t)%nat) dir = true ->
    Mcp.port_status probe = {| running := true; pid := Some owner |} ->
    let failure := "Port " +:+ Js.toString p +:+ " already in use (pid: "
                   +:+ owner +:+ ")" in
    let tr := [EvReadConfig c; EvExistsSync dir true; EvExec (lsof_cmd p) probe] in
    spawns tr = 0%nat
    /\ run e (Mcp.startService HOME penv p) t = (Returned (Mcp.StartFailed failure), tr)
    /\ run e (Mcp.call_tool HOME penv "start_service" args) t
       = (Returned {| Mcp.text := "❌ Failed: " +:+ failure; Mcp.isError := false |}, tr).
Proof.
  intros HOME penv e t args s owner p c dir probe H Hdir Hprobe failure tr.
  pose proof (mcp_start_already_running HOME penv e t p s owner H Hdir Hprobe) as Hm.
  split; [reflexivity|]. split; [exact Hm|].
  exact (run_start_service_tool HOME penv e t args _ _ Hm).
Qed.

Lemma C1_start_on_bound_port_witness :
  let w := world (Parsed {| services := [api] |}) (fun _ => true)
                 (fun _ => lsof_lists ["4242"]) in
  run (always w) (Mcp.startService home ∅ (Js.Num 4000)) 0
  = (Returned (Mcp.StartFailed "Port 4000 already in use (pid: 4242)"),
     [EvReadConfig (Parsed {| services := [api] |});
      EvExistsSync "/home/dev/proj" true;
      EvExec "lsof -i :4000 -t" (lsof_lists ["4242"])]).
Proof.
  intros w.
  destruct (C1_start_on_bound_port home ∅ (always w) 0
              {| Mcp.arg_filter := None; Mcp.arg_port := Js.Num 4000 |} api "4242"
              eq_refl eq_refl eq_refl) as (_ & Hm & _).
  exact Hm.
Defined.

(** C1, as stated, fails.  On the HTTP server, start on the configured port
    4000, bound by process 4242 and with its directory in place, launches the
    command once more and answers success.  On the tool-call server, with the
    port bound but the directory missing, start answers "Directory not found"
    and not "already in use". *)
Lemma C1_counterexample_http_start_spawns_on_bound_port :
  let bound := fun _ : string => lsof_lists ["4242"] in
  let w := world (Parsed {| services := [api] |}) (fun _ => true) bound in
  let w' := world (Parsed {| services := [api] |}) (fun _ => false) bound in
  services_find [api] (Js.Num 4000) = Some api
  /\ Mcp.port_status (sh_exec w (lsof_cmd (Js.Num 4000)))
     = {| running := true; pid := Some "4242" |}
  /\ fst (run (always w) (Http.post_start home ∅ (Js.Num 4000)) 0)
     = Returned {| Http.statusCode := 200; Http.body := Http.BodyStarted 777 |}
  /\ spawns (snd (run (always w) (Http.post_start home ∅ (Js.Num 4000)) 0)) = 1%nat
  /\ execs (snd (run (always w) (Http.post_start home ∅ (Js.Num 4000)) 0)) = 0%nat
  /\ run (always w') (Mcp.startService home ∅ (Js.Num 4000)) 0
     = (Returned (Mcp.StartFailed "Directory not found: /home/dev/proj"),
        [EvReadConfig (Parsed {| services := [api] |});
         EvExistsSync "/home/dev/proj" false]).
Proof.
  cbv zeta. repeat split; reflexivity.
Qed.

Lemma get_substitution_no_dollar (matched before after repl : string) :
  no_dollar repl = true -> Js.get_substitution matched before after repl = repl.
Proof.
  induction repl as [|c r IH]; [reflexivity|]. simpl.
  intros H. apply andb_true_iff in H as [Hc Hr]. apply negb_true_iff in Hc.
  rewrite Hc. now rewrite IH.
Qed.

Lemma expandPath_tilde (HOME rest : string) :
  no_dollar HOME = true -> Mcp.expandPath HOME (String "~" rest) = HOME +:+ rest.
Proof.
  intros H. unfold Mcp.expandPath, Js.replace_leading_tilde.
  change (Ascii.eqb "~" "~") with true. cbv iota.
  now rewrite get_substitution_no_dollar.
Qed.

(** C8, as amended. With the registry holding the single descriptor [api],
    the expanded directory of [~/proj] in place and no process bound to port
    4000, start(4000) splits the start command into [node] and [server.js],
    launches it in the expanded directory (the home directory followed by
    [/proj], for a home directory without a dollar sign) with [PORT=4000] added
    to the environment; once the child runs, it waits 2000 ms, probes again
    and, the port being still unbound, answers success with the caveat that the
    service may still be initializing. *)
Theorem C8_start_api_scenario :
  forall (HOME : string) (penv : gmap string string) (e : Env) (t : nat) (child_pid : Z),
    let dir := Mcp.expandPath HOME "~/proj" in
    let opts := {| cwd := dir; shell := true; detached := true; stdio := StdioIgnore;
                   env := <["PORT" := "4000"]> penv |} in
    let probe := sh_exec (e (2 + t)%nat) "lsof -i :4000 -t" in
    let probe' := sh_exec (e (5 + t)%nat) "lsof -i :4000 -t" in
    config_file (e t) = Parsed {| services := [api] |} ->
    fs_exists (e (1 + t)%nat) dir = true ->
    (Mcp.port_status probe).(running) = false ->
    os_spawn (e (3 + t)%nat) "node" ["server.js"] opts = Spawned child_pid ->
    (Mcp.port_status probe').(running) = false ->
    let caveat := "Start command sent, but service may still be initializing" in
    let tr := [EvReadConfig (Parsed {| services := [api] |});
               EvExistsSync dir true;
               EvExec "lsof -i :4000 -t" probe;
               EvSpawn "node" ["server.js"] opts (Spawned child_pid);
               EvSetTimeout 2000;
               EvExec "lsof -i :4000 -t" probe'] in
    parse_startCmd api.(startCmd) = ("node", ["server.js"])
    /\ (no_dollar HOME = true -> dir = HOME +:+ "/proj")
    /\ run e (Mcp.startService HOME penv (Js.Num 4000)) t
       = (Returned (Mcp.StartOk "api" (Js.Num 4000) false caveat), tr)
    /\ run e (Mcp.call_tool HOME penv "start_service"
                {| Mcp.arg_filter := None; Mcp.arg_port := Js.Num 4000 |}) t
       = (Returned {| Mcp.text := "✅ " +:+ caveat +:+ nl +:+ "URL: http://localhost:4000";
                      Mcp.isError := false |}, tr).
Proof.
  intros HOME penv e t child_pid dir opts probe probe' Hc Hdir Hprobe Hspawn Hprobe'
         caveat tr.
  split; [reflexivity|]. split; [apply expandPath_tilde|].
  assert (Hm : run e (Mcp.startService HOME penv (Js.Num 4000)) t
               = (Returned (Mcp.StartOk "api" (Js.Num 4000) false caveat), tr)).
  { subst dir opts probe probe' caveat tr. cbn [Nat.add] in *.
    unfold Mcp.startService. rewrite run_mcp_load, Hc.
    change (services_find (registry_of (Parsed {| services := [api] |})) (Js.Num 4000))
      with (Some api).
    cbv beta iota. change (path api) with "~/proj".
    change (parse_startCmd (startCmd api)) with ("node", ["server.js"]).
    change (name api) with "api".
    cbn [run]. rewrite Hdir. cbn [negb Mcp.checkPort bind run].
    change (lsof_cmd (Js.Num 4000)) with "lsof -i :4000 -t".
    rewrite Hprobe. change (Js.toString (Js.Num 4000)) with "4000".
    cbn [run]. rewrite Hspawn. cbn [bind run]. rewrite Hprobe'.
    reflexivity. }
  split; [exact Hm|].
  exact (run_start_service_tool HOME penv e t
           {| Mcp.arg_filter := None; Mcp.arg_port := Js.Num 4000 |} _ _ Hm).
Qed.

Lemma C8_start_api_scenario_witness :
  let w := world (Parsed {| services := [api] |}) (fun _ => true) (fun _ => lsof_silent) in
  fst (run (always w) (Mcp.startService home ∅ (Js.Num 4000)) 0)
  = Returned (Mcp.StartOk "api" (Js.Num 4000) false
                "Start command sent, but service may still be initializing")
  /\ Mcp.expandPath home "~/proj" = "/home/dev/proj".
Proof.
  intros w.
  destruct (C8_start_api_scenario home ∅ (always w) 0 777
              eq_refl eq_refl eq_refl eq_refl eq_refl) as (_ & Hdir & Hm & _).
  split; [exact (f_equal fst Hm) | exact (Hdir eq_refl)].
Defined.

(** C8, as stated, fails: nothing in the scenario puts the directory in
    place, and without it start(4000) answers "Directory not found" and
    launches nothing. *)
Lemma C8_counterexample_directory_missing :
  let w := world (Parsed {| services := [api] |}) (fun _ => false) (fun _ => lsof_silent) in
  (Mcp.port_status (sh_exec w (lsof_cmd (Js.Num 4000)))).(running) = false
  /\ run (always w) (Mcp.startService home ∅ (Js.Num 4000)) 0
     = (Returned (Mcp.StartFailed "Directory not found: /home/dev/proj"),
        [EvReadConfig (Parsed {| services := [api] |});
         EvExistsSync "/home/dev/proj" false])
  /\ spawns (snd (run (always w) (Mcp.startService home ∅ (Js.Num 4000)) 0)) = 0%nat.
Proof.
  cbv zeta. repeat split; reflexivity.
Qed.

(** ** The registry behind the tool calls *)

Lemma narrow_nil (f : string) : Mcp.narrow f [] = [].
Proof.
  unfold Mcp.narrow.
  destruct (String.eqb f "running"); [reflexivity|].
  destruct (String.eqb f "stopped"); [reflexivity|].
  destruct (existsb (String.eqb f) Mcp.type_tags); reflexivity.
Qed.

(** A tool whose run reads the configuration at call [t']: the read yields no
    document, and both runs then compute to the same answer. *)
Ltac by_unusable_read e t' :=
  let E := fresh "E" in
  destruct (config_file (e t')) eqn:E; try contradiction;
  (split; cbn; rewrite ?E; reflexivity).

Lemma tool_call_over_unusable_configuration HOME penv (e : Env) tool args :
  (forall t, unusable (config_file (e t))) ->
  let e0 : Env := fun t => with_config (Parsed {| services := [] |}) (e t) in
  forall t,
    fst (run e (Mcp.call_tool HOME penv tool args) t)
    = fst (run e0 (Mcp.call_tool HOME penv tool args) t)
    /\ List.map blind (snd (run e (Mcp.call_tool HOME penv tool args) t))
       = List.map blind (snd (run e0 (Mcp.call_tool HOME penv tool args) t)).
Proof.
  intros H e0 t. unfold Mcp.call_tool.
  pose proof (H t) as H0. pose proof (H (S t)) as H1.
  destruct (String.eqb tool "list_services"); [by_unusable_read e t|].
  destruct (String.eqb tool "check_port"); [by_unusable_read e (S t)|].
  destruct (String.eqb tool "start_service"); [by_unusable_read e t|].
  destruct (String.eqb tool "stop_service").
  { split; cbn;
      destruct (Js.is_empty
                  (Js.trim (stdout (sh_exec (e t) (lsof_cmd (Mcp.arg_port args))))));
      reflexivity. }
  destruct (String.eqb tool "get_service_info"); [by_unusable_read e t|].
  destruct (String.eqb tool "quick_status"); [by_unusable_read e t|].
  split; reflexivity.
Qed.

(** C9. When the read of the configuration fails or its text is not JSON,
    the tool-call server's [loadServices] returns the empty list and throws
    nothing; every tool call then answers, and calls the outside, exactly as
    under a configuration with no services: start reports "No service
    configured" and [list_services] reports a total of 0 services. *)
Theorem C9_unusable_configuration_loads_as_empty :
  forall (HOME : string) (penv : gmap string string) (e : Env)
         (tool : string) (args : Mcp.ToolArgs),
    (forall t, unusable (config_file (e t))) ->
    let e0 : Env := fun t => with_config (Parsed {| services := [] |}) (e t) in
    forall t,
      run e Mcp.loadServices t = (Returned [], [EvReadConfig (config_file (e t))])
      /\ fst (run e (Mcp.call_tool HOME penv tool args) t)
         = fst (run e0 (Mcp.call_tool HOME penv tool args) t)
      /\ List.map blind (snd (run e (Mcp.call_tool HOME penv tool args) t))
         = List.map blind (snd (run e0 (Mcp.call_tool HOME penv tool args) t))
      /\ run e (Mcp.call_tool HOME penv "start_service" args) t
         = (Returned {| Mcp.text := "❌ Failed: No service configured for port "
                                    +:+ Js.toString args.(Mcp.arg_port);
                        Mcp.isError := false |},
            [EvReadConfig (config_file (e t))])
      /\ run e (Mcp.call_tool HOME penv "list_services" args) t
         = (Returned {| Mcp.text := "Local Services ("
                                    +:+ Mcp.filter_or_all args.(Mcp.arg_filter)
                                    +:+ "):" +:+ nl +:+ nl +:+ nl +:+ nl
                                    +:+ "Total: 0 services";
                        Mcp.isError := false |},
            [EvReadConfig (config_file (e t))]).
Proof.
  intros HOME penv e tool args H e0 t. pose proof (H t) as H0.
  assert (Hreg : registry_of (config_file (e t)) = []).
  { destruct (config_file (e t)); [reflexivity | reflexivity | contradiction]. }
  split.
  { unfold Mcp.loadServices. cbn [run].
    destruct (config_file (e t)); [reflexivity | reflexivity | contradiction]. }
  split; [apply (tool_call_over_unusable_configuration HOME penv e tool args H t)|].
  split; [apply (tool_call_over_unusable_configuration HOME penv e tool args H t)|].
  split.
  - apply (run_start_service_tool HOME penv e t args
             (Mcp.StartFailed ("No service configured for port "
                               +:+ Js.toString args.(Mcp.arg_port)))).
    apply mcp_start_unknown. now rewrite Hreg.
  - destruct (config_file (e t)) eqn:E; try contradiction;
      cbn; rewrite E; cbn; rewrite narrow_nil; reflexivity.
Qed.

Lemma C9_unusable_configuration_loads_as_empty_witness :
  let w := world (ParseFails "Unexpected token } in JSON at position 12")
                 (fun _ => true) (fun _ => lsof_silent) in
  run (always w) (Mcp.call_tool home ∅ "start_service"
                    {| Mcp.arg_filter := None; Mcp.arg_port := Js.Num 4000 |}) 0
  = (Returned {| Mcp.text := "❌ Failed: No service configured for port 4000";
                 Mcp.isError := false |},
     [EvReadConfig (ParseFails "Unexpected token } in JSON at position 12")]).
Proof.
  intros w.
  destruct (C9_unusable_configuration_loads_as_empty home ∅ (always w) "start_service"
              {| Mcp.arg_filter := None; Mcp.arg_port := Js.Num 4000 |}
              (fun _ => I) 0) as (_ & _ & _ & Hs & _).
  exact Hs.
Defined.

Lemma C4_type_tag_and_unrecognised_filter_witness :
  let e := always (world (Parsed {| services := [pg; web; api] |}) (fun _ => true)
                         (fun _ => lsof_silent)) in
  (exists all kept tr,
      run e (Mcp.getAll (Some "all")) 0 = (Returned all, tr)
      /\ run e (Mcp.getAll (Some "backend")) 0 = (Returned kept, tr)
      /\ kept = List.filter (fun v => String.eqb v.(Mcp.view_type) "backend") all)
  /\ (exists all kept tr,
         run e (Mcp.getAll (Some "all")) 0 = (Returned all, tr)
         /\ run e (Mcp.getAll (Some "database")) 0 = (Returned kept, tr)
         /\ kept = all).
Proof.
  intros e. split.
  - destruct (C4_type_tag_and_unrecognised_filter e 0 "backend")
      as (all & kept & tr & Ha & Hk & _ & Htag & _).
    exists all, kept, tr. split; [exact Ha|]. split; [exact Hk|].
    apply Htag. simpl. auto.
  - destruct (C4_type_tag_and_unrecognised_filter e 0 "database")
      as (all & kept & tr & Ha & Hk & _ & _ & Hother).
    exists all, kept, tr. split; [exact Ha|]. split; [exact Hk|].
    apply Hother. simpl. intros [H|[H|[H|[H|[H|[]]]]]]; discriminate H.
Defined.

(** ** Removing a service over HTTP *)

Lemma filter_length_split {A} (f : A -> bool) (l : list A) :
  (length (List.filter (fun x => negb (f x)) l) + length (List.filter f l)
   = length l)%nat.
Proof.
  induction l as [|a l IH]; [reflexivity|]. simpl.
  destruct (f a); simpl; lia.
Qed.

Lemma filter_all {A} (f : A -> bool) (l : list A) :
  Forall (fun x => f x = true) l -> List.filter f l = l.
Proof.
  induction 1 as [|a l Ha _ IH]; [reflexivity|]. simpl. now rewrite Ha, IH.
Qed.

Lemma strict_eq_false (a : Z) (p : Js.num) :
  Js.strict_eq a p = false <-> p <> Js.Num a.
Proof.
  rewrite <- strict_eq_true. destruct (Js.strict_eq a p); split; congruence.
Qed.

(** C10. The remove-service route reads the document and hands it back to
    the write with every descriptor whose port is the given port taken out,
    duplicates included; the descriptors of the other ports all stay, in
    their original order, and nothing else goes: when no descriptor has the
    port, the services written are the services read.  Once the write goes
    through the route answers success. *)
Theorem C10_remove_service_by_port :
  forall (e : Env) (t : nat) (p : Js.num) (doc : Config),
    config_file (e t) = Parsed doc ->
    exists (kept : list ServiceDescriptor) (o : Outcome Http.Response),
      run e (Http.delete_service p) t
      = (o, [EvReadConfig (Parsed doc);
             EvWriteConfig {| services := kept |}
                           (fs_write (e (S t)) {| services := kept |})])
      /\ (fs_write (e (S t)) {| services := kept |} = None ->
          o = Returned {| Http.statusCode := 200; Http.body := Http.BodySuccess |})
      /\ Forall (fun s => p <> Js.Num s.(port)) kept
      /\ sublist kept doc.(services)
      /\ (forall s, In s doc.(services) -> p <> Js.Num s.(port) -> In s kept)
      /\ (length kept
          + length (List.filter (fun s => Js.strict_eq s.(port) p) doc.(services))
          = length doc.(services))%nat
      /\ (Forall (fun s => p <> Js.Num s.(port)) doc.(services) -> kept = doc.(services)).
Proof.
  intros e t p doc Hc.
  exists (List.filter (fun s => negb (Js.strict_eq s.(port) p)) doc.(services)).
  set (kept := List.filter _ _).
  exists (match fs_write (e (S t)) {| services := kept |} with
          | Some msg => Thrown msg
          | None => Returned {| Http.statusCode := 200; Http.body := Http.BodySuccess |}
          end).
  split.
  { unfold Http.delete_service. cbn [run]. rewrite Hc. cbn [run]. fold kept.
    destruct (fs_write _ _); reflexivity. }
  split.
  { intros Hw. now rewrite Hw. }
  subst kept.
  split.
  { apply List.Forall_forall. intros s Hs. apply filter_In in Hs as [_ Hs].
    apply negb_true_iff in Hs. now apply strict_eq_false. }
  split; [apply filter_sublist|].
  split.
  { intros s Hs Hp. apply filter_In. split; [exact Hs|].
    apply negb_true_iff. now apply strict_eq_false. }
  split; [apply filter_length_split|].
  intros Hall. apply filter_all. eapply List.Forall_impl; [|exact Hall].
  intros s Hs. apply negb_true_iff. now apply strict_eq_false.
Qed.

Lemma C10_remove_service_by_port_witness :
  let doc := {| services := [api; web; api_twin] |} in
  let e := always (world (Parsed doc) (fun _ => true) (fun _ => lsof_silent)) in
  exists kept,
    run e (Http.delete_service (Js.Num 4000)) 0
    = (Returned {| Http.statusCode := 200; Http.body := Http.BodySuccess |},
       [EvReadConfig (Parsed doc); EvWriteConfig {| services := kept |} None])
    /\ Forall (fun s => Js.Num 4000 <> Js.Num s.(port)) kept
    /\ In web kept.
Proof.
  intros doc e.
  destruct (C10_remove_service_by_port e 0 (Js.Num 4000) doc eq_refl)
    as (kept & o & Hrun & Hok & Hgone & _ & Hstay & _).
  exists kept. split; [|split; [exact Hgone|]].
  - rewrite Hrun. now rewrite (Hok eq_refl).
  - apply Hstay; [simpl; auto | discriminate].
Defined.

(** * Further properties of the code *)

(** ** Splitting and joining *)

Lemma split_not_nil (sep : ascii) (s : string) : Js.split sep s <> [].
Proof.
  destruct s as [|a s]; simpl; [discriminate|].
  destruct (Ascii.eqb a sep); [discriminate|].
  destruct (Js.split sep s); discriminate.
Qed.

Lemma join_cons_char (sep : string) (a : ascii) (h : string) (t : list string) :
  Js.join sep (String a h :: t) = String a (Js.join sep (h :: t)).
Proof. destruct t; reflexivity. Qed.

Lemma join_split (sep : ascii) (s : string) :
  Js.join (String sep EmptyString) (Js.split sep s) = s.
Proof.
  induction s as [|a s IH]; [reflexivity|]. simpl.
  destruct (Ascii.eqb a sep) eqn:E.
  - apply Ascii.eqb_eq in E. subst a.
    pose proof (split_not_nil sep s) as Hne.
    destruct (Js.split sep s) as [|h t] eqn:Es; [congruence|].
    change (Js.join (String sep EmptyString) (EmptyString :: h :: t))
      with (EmptyString +:+ String sep EmptyString
            +:+ Js.join (String sep EmptyString) (h :: t)).
    rewrite IH. reflexivity.
  - pose proof (split_not_nil sep s) as Hne.
    destruct (Js.split sep s) as [|h t] eqn:Es; [congruence|].
    rewrite join_cons_char. now rewrite IH.
Qed.

Lemma split_pieces_without_sep (sep : ascii) (s : string) :
  Forall (fun piece => has_char sep piece = false) (Js.split sep s).
Proof.
  induction s as [|a s IH]; simpl.
  - repeat constructor.
  - destruct (Ascii.eqb a sep) eqn:E.
    + constructor; [reflexivity | exact IH].
    + destruct (Js.split sep s) as [|h t].
      * repeat constructor. simpl. now rewrite E.
      * inversion IH as [|? ? Hh Ht]; subst. constructor; [|exact Ht].
        simpl. now rewrite E, Hh.
Qed.

(** X1. The start command is cut at every space, and at spaces only: the
    command and its arguments hold no space, and joined again with single
    spaces they give the start command back, character for character; the
    command is empty exactly when the start command is empty or begins with a
    space. *)
Theorem X1_start_command_split_round_trip : forall (startCmd : string),
  let cmd := fst (parse_startCmd startCmd) in
  let args := snd (parse_startCmd startCmd) in
  Js.join " " (cmd :: args) = startCmd
  /\ Forall (fun word => has_char Js.SP word = false) (cmd :: args)
  /\ (cmd = EmptyString <->
      startCmd = EmptyString \/ exists rest, startCmd = String Js.SP rest).
Proof.
  intros startCmd cmd args. subst cmd args. unfold parse_startCmd. cbn [fst snd].
  pose proof (join_split Js.SP startCmd) as Hj.
  pose proof (split_pieces_without_sep Js.SP startCmd) as Hp.
  pose proof (split_not_nil Js.SP startCmd) as Hne.
  assert (Hhd : hd EmptyString (Js.split Js.SP startCmd) = EmptyString <->
                startCmd = EmptyString \/ exists rest, startCmd = String Js.SP rest).
  { destruct startCmd as [|a r]; simpl.
    - split; auto.
    - destruct (Ascii.eqb a Js.SP) eqn:E.
      + apply Ascii.eqb_eq in E. subst a. simpl. split; eauto.
      + destruct (Js.split Js.SP r); simpl; split; try discriminate;
          intros [H|[rest H]]; try discriminate;
          injection H as H _; subst a; discriminate E. }
  destruct (Js.split Js.SP startCmd) as [|h t]; [congruence|].
  cbn [hd tl] in *. split; [exact Hj|]. split; [exact Hp | exact Hhd].
Qed.

(** ** Expanding the home directory *)

Lemma append_assoc_str (a b c : string) : (a +:+ b) +:+ c = a +:+ (b +:+ c).
Proof.
  induction a as [|x a IH]; [reflexivity|]. rewrite !append_cons. now rewrite IH.
Qed.

Lemma get_substitution_app (matched before after h repl : string) :
  no_dollar h = true ->
  Js.get_substitution matched before after (h +:+ repl)
  = h +:+ Js.get_substitution matched before after repl.
Proof.
  induction h as [|c h IH]; intros H; [reflexivity|].
  simpl in H. apply andb_true_iff in H as [Hc Hh]. apply negb_true_iff in Hc.
  rewrite !append_cons. cbn [Js.get_substitution]. rewrite Hc. now rewrite IH.
Qed.

(** X2. A path that does not begin with a tilde is left as it is, and only
    a tilde in the first place is expanded: for a home directory without a
    dollar sign, [~] followed by anything becomes the home directory followed
    by the same text, so that later tildes stay and [~bob/x] is read under
    the caller's own home.  The two servers expand alike. *)
Theorem X2_expand_leading_tilde_only : forall (HOME p : string),
  Mcp.expandPath HOME p = Http.expandPath HOME p
  /\ ((forall rest, p <> String "~" rest) -> Mcp.expandPath HOME p = p)
  /\ (no_dollar HOME = true ->
      forall rest, p = String "~" rest -> Mcp.expandPath HOME p = HOME +:+ rest).
Proof.
  intros HOME p. split; [reflexivity|]. split.
  - intros H. unfold Mcp.expandPath, Js.replace_leading_tilde.
    destruct p as [|a rest]; [reflexivity|].
    destruct (Ascii.eqb a "~") eqn:E; [|reflexivity].
    apply Ascii.eqb_eq in E. subst a. now destruct (H rest).
  - intros H rest ->. now apply expandPath_tilde.
Qed.

Lemma X2_expand_leading_tilde_only_witness :
  Mcp.expandPath home "/srv/~web" = "/srv/~web"
  /\ Mcp.expandPath home "~bob/~x" = "/home/devbob/~x".
Proof.
  split.
  - apply (X2_expand_leading_tilde_only home "/srv/~web"). intros rest H. discriminate H.
  - apply (proj2 (proj2 (X2_expand_leading_tilde_only home "~bob/~x")) eq_refl "bob/~x").
    reflexivity.
Defined.

(** X3. The home directory is handed to [replace] as a replacement text, in
    which a dollar sign is special: a home directory that holds [$$] is
    expanded with one dollar sign only, one that holds [$&] gets a tilde in
    that place, and one that holds [$'] gets the rest of the path there. *)
Theorem X3_expand_home_with_dollar_patterns : forall (h1 h2 rest : string),
  no_dollar h1 = true -> no_dollar h2 = true ->
  Mcp.expandPath (h1 +:+ "$$" +:+ h2) (String "~" rest) = h1 +:+ "$" +:+ h2 +:+ rest
  /\ Mcp.expandPath (h1 +:+ "$&" +:+ h2) (String "~" rest) = h1 +:+ "~" +:+ h2 +:+ rest
  /\ Mcp.expandPath (h1 +:+ "$'" +:+ h2) (String "~" rest)
     = h1 +:+ rest +:+ h2 +:+ rest.
Proof.
  intros h1 h2 rest H1 H2. unfold Mcp.expandPath, Js.replace_leading_tilde.
  change (Ascii.eqb "~" "~") with true. cbv iota.
  repeat split;
    rewrite get_substitution_app by assumption;
    rewrite !append_cons, !append_nil; cbn [Js.get_substitution];
    repeat match goal with
           | |- context [Ascii.eqb ?a ?b] =>
               let v := eval vm_compute in (Ascii.eqb a b) in
               change (Ascii.eqb a b) with v
           end;
    cbv iota; rewrite get_substitution_no_dollar by assumption;
    rewrite ?append_assoc_str, ?append_cons, ?append_nil; reflexivity.
Qed.

Lemma X3_expand_home_with_dollar_patterns_witness :
  Mcp.expandPath "/home/a$$b" "~/proj" = "/home/a$b/proj".
Proof.
  apply (X3_expand_home_with_dollar_patterns "/home/a" "b" "/proj"); reflexivity.
Defined.

(** ** The status a probe resolves to *)

Lemma split_head_without_sep (sep : ascii) (s : string) :
  has_char sep (List.hd EmptyString (Js.split sep s)) = false.
Proof.
  pose proof (split_pieces_without_sep sep s) as H.
  destruct (Js.split sep s); [reflexivity|]. now inversion H.
Qed.

(** The two shapes of a status: nothing listed, or a first line. *)
Lemma mcp_status_shape (r : ExecResult) :
  Mcp.port_status r = {| running := false; pid := None |}
  \/ exists a h,
       Mcp.port_status r = {| running := true; pid := Some (String a h) |}
       /\ Js.is_ws a = false /\ has_char Js.LF (String a h) = false.
Proof.
  unfold Mcp.port_status.
  destruct (Js.trim (stdout r)) as [|a out] eqn:E; [left; reflexivity|].
  pose proof (trim_head _ _ _ E) as Ha.
  destruct (split_head Js.LF a out (not_ws_not_LF a Ha)) as [h Hh].
  pose proof (split_head_without_sep Js.LF (String a out)) as Hlf.
  rewrite Hh in *. right. exists a, h. repeat split; assumption.
Qed.

(** X4. In the status of a probe, on either server, the port is reported
    running exactly when a pid is given; the pid is never empty, holds no
    line feed and does not begin with white space. *)
Theorem X4_probe_status_running_iff_pid : forall (r : ExecResult),
  let status := Mcp.port_status r in
  Http.port_status r = status
  /\ (status.(running) = true <-> exists p, status.(pid) = Some p)
  /\ (status.(running) = false <-> status.(pid) = None)
  /\ (forall p, status.(pid) = Some p ->
        p <> EmptyString /\ has_char Js.LF p = false
        /\ exists a rest, p = String a rest /\ Js.is_ws a = false).
Proof.
  intros r status. split; [apply port_status_agree|]. subst status.
  destruct (mcp_status_shape r) as [-> | (a & h & -> & Ha & Hlf)]; cbn [running pid].
  - split; [|split].
    + split; [discriminate | intros [p H]; discriminate H].
    + split; reflexivity.
    + intros p H. discriminate H.
  - split; [|split].
    + split; eauto.
    + split; discriminate.
    + intros p [= <-]. split; [discriminate|]. split; [exact Hlf|]. eauto.
Qed.

Lemma X4_probe_status_running_iff_pid_witness :
  (Mcp.port_status (lsof_lists ["4242"; "977"])).(running) = true.
Proof.
  apply (X4_probe_status_running_iff_pid (lsof_lists ["4242"; "977"])).
  exists "4242". reflexivity.
Defined.

(** ** The router *)

Lemma digit_char_facts (c : ascii) :
  is_digit c = true ->
  Js.is_ws c = false /\ Ascii.eqb c "-" = false /\ Ascii.eqb c "+" = false
  /\ Ascii.eqb c "x" = false /\ Ascii.eqb c "X" = false /\ Ascii.eqb c "/" = false
  /\ exists d, Routes.digit_value 10 c = Some d.
Proof.
  destruct c as [[] [] [] [] [] [] [] []]; intros H; try discriminate H;
    repeat split; eexists; reflexivity.
Qed.

Lemma string_of_uint_digits (d : Decimal.uint) :
  all_digits (NilEmpty.string_of_uint d) = true.
Proof. induction d; simpl; auto. Qed.

Lemma digits_of_uint (d : Decimal.uint) : forall acc,
  Routes.digits 10 (NilEmpty.string_of_uint d) acc = uint_value d acc.
Proof.
  induction d as [|d IH|d IH|d IH|d IH|d IH|d IH|d IH|d IH|d IH|d IH]; intros acc;
    cbn [NilEmpty.string_of_uint Routes.digits uint_value]; [reflexivity|..];
    match goal with
    | |- context [Routes.digit_value 10 ?c] =>
        let v := eval vm_compute in (Routes.digit_value 10 c) in
        change (Routes.digit_value 10 c) with v
    end; cbv iota beta; rewrite IH; f_equal; lia.
Qed.

Lemma uint_value_pos (d : Decimal.uint) : forall a,
  uint_value d (Z.pos a) = Z.pos (Pos.of_uint_acc d a).
Proof.
  induction d as [|d IH|d IH|d IH|d IH|d IH|d IH|d IH|d IH|d IH|d IH]; intros a;
    cbn [uint_value Pos.of_uint_acc]; [reflexivity|..];
    match goal with
    | |- uint_value d ?x = Z.pos (Pos.of_uint_acc d ?y) =>
        replace x with (Z.pos y) by lia
    end; apply IH.
Qed.

Lemma uint_value_zero (d : Decimal.uint) :
  uint_value d 0 = Z.of_N (Pos.of_uint d).
Proof.
  induction d as [|d IH|d IH|d IH|d IH|d IH|d IH|d IH|d IH|d IH|d IH];
    cbn [uint_value Pos.of_uint]; [reflexivity | exact IH | ..];
    cbn [Z.mul Z.add Z.of_N]; apply uint_value_pos.
Qed.

Lemma parseInt_numeral (s : string) :
  s <> EmptyString -> all_digits s = true ->
  Routes.parseInt s = Js.Num (Routes.digits 10 s 0)
  /\ Routes.parseInt (String "-" s) = Js.Num (- Routes.digits 10 s 0).
Proof.
  destruct s as [|c r]; [congruence|]. intros _ H. simpl in H.
  apply andb_true_iff in H as [Hc Hr].
  destruct (digit_char_facts c Hc) as (Hws & Hm & Hp & _ & _ & _ & [d Hd]).
  assert (Hradix :
    match String c r with
    | String c0 (String x r0) =>
        if Ascii.eqb c0 "0" && (Ascii.eqb x "x" || Ascii.eqb x "X")
        then (16%Z, r0) else (10%Z, String c r)
    | _ => (10%Z, String c r)
    end = (10%Z, String c r)).
  { destruct r as [|x r0]; [reflexivity|]. simpl in Hr.
    apply andb_true_iff in Hr as [Hx _].
    destruct (digit_char_facts x Hx) as (_ & _ & _ & Hx1 & Hx2 & _).
    rewrite Hx1, Hx2. now rewrite andb_false_r. }
  split; unfold Routes.parseInt; cbn [Js.trimStart].
  - rewrite Hws, Hm, Hp, Hradix. unfold Routes.leading_digits. now rewrite Hd.
  - change (Js.is_ws "-") with false. cbv iota.
    change (Ascii.eqb "-" "-") with true. cbv iota.
    rewrite Hradix. unfold Routes.leading_digits. now rewrite Hd.
Qed.

Lemma string_of_uint_not_empty (p : positive) :
  NilEmpty.string_of_uint (Pos.to_uint p) <> EmptyString.
Proof.
  pose proof (DecimalPos.Unsigned.to_uint_nonnil p) as H.
  destruct (Pos.to_uint p); [congruence|..]; discriminate.
Qed.

Lemma toString_pos (p : positive) :
  Js.toString (Js.Num (Z.pos p)) = NilEmpty.string_of_uint (Pos.to_uint p).
Proof.
  unfold Js.toString. cbn [Z.to_int NilZero.string_of_int].
  unfold NilZero.string_of_uint.
  pose proof (DecimalPos.Unsigned.to_uint_nonnil p) as H.
  destruct (Pos.to_uint p); [congruence|..]; reflexivity.
Qed.

Lemma toString_neg (p : positive) :
  Js.toString (Js.Num (Z.neg p)) = String "-" (NilEmpty.string_of_uint (Pos.to_uint p)).
Proof.
  unfold Js.toString. cbn [Z.to_int NilZero.string_of_int].
  unfold NilZero.string_of_uint.
  pose proof (DecimalPos.Unsigned.to_uint_nonnil p) as H.
  destruct (Pos.to_uint p); [congruence|..]; reflexivity.
Qed.

Lemma digits_of_pos (p : positive) :
  Routes.digits 10 (NilEmpty.string_of_uint (Pos.to_uint p)) 0 = Z.pos p.
Proof.
  rewrite digits_of_uint, uint_value_zero, DecimalPos.Unsigned.of_to. reflexivity.
Qed.

Lemma parseInt_toString (z : Z) : Routes.parseInt (Js.toString (Js.Num z)) = Js.Num z.
Proof.
  destruct z as [|p|p].
  - reflexivity.
  - rewrite toString_pos.
    destruct (parseInt_numeral _ (string_of_uint_not_empty p) (string_of_uint_digits _))
      as [-> _].
    now rewrite digits_of_pos.
  - rewrite toString_neg.
    destruct (parseInt_numeral _ (string_of_uint_not_empty p) (string_of_uint_digits _))
      as [_ ->].
    now rewrite digits_of_pos.
Qed.

Lemma split_at_sep (sep : ascii) (r : string) :
  Js.split sep (String sep r) = EmptyString :: Js.split sep r.
Proof. simpl. now rewrite Ascii.eqb_refl. Qed.

Lemma split_piece (sep : ascii) (p r : string) :
  has_char sep p = false ->
  Js.split sep (p +:+ String sep r) = p :: Js.split sep r.
Proof.
  induction p as [|a p IH]; intros H.
  - rewrite append_nil. apply split_at_sep.
  - simpl in H. apply orb_false_iff in H as [Ha Hp].
    rewrite append_cons. cbn [Js.split]. rewrite Ha, (IH Hp). reflexivity.
Qed.

Lemma split_whole (sep : ascii) (p : string) :
  has_char sep p = false -> Js.split sep p = [p].
Proof.
  induction p as [|a p IH]; intros H; [reflexivity|].
  simpl in H. apply orb_false_iff in H as [Ha Hp].
  cbn [Js.split]. rewrite Ha, (IH Hp). reflexivity.
Qed.

Lemma digits_no_slash (s : string) : all_digits s = true -> has_char "/" s = false.
Proof.
  induction s as [|c r IH]; [reflexivity|]. simpl. intros H.
  apply andb_true_iff in H as [Hc Hr].
  destruct (digit_char_facts c Hc) as (_ & _ & _ & _ & _ & Hs & _).
  now rewrite Hs, IH.
Qed.

Lemma toString_no_slash (z : Z) : has_char "/" (Js.toString (Js.Num z)) = false.
Proof.
  destruct z as [|p|p].
  - reflexivity.
  - rewrite toString_pos. apply digits_no_slash, string_of_uint_digits.
  - rewrite toString_neg. simpl. apply digits_no_slash, string_of_uint_digits.
Qed.

(** The port a path carries in its fourth piece. *)
Lemma port_of_numbered_path (a b : string) (z : Z) (tail : string) :
  has_char "/" a = false -> has_char "/" b = false ->
  tail = EmptyString \/ (exists r, tail = String "/" r) ->
  Routes.port_of_path (String "/" (a +:+ String "/" (b +:+ String "/"
                         (Js.toString (Js.Num z) +:+ tail))))
  = Js.Num z.
Proof.
  intros Ha Hb Htail. unfold Routes.port_of_path.
  rewrite split_at_sep, (split_piece "/" a _ Ha), (split_piece "/" b _ Hb).
  cbn [nth]. pose proof (toString_no_slash z) as Hn.
  destruct Htail as [-> | [r ->]].
  - assert (E : Js.toString (Js.Num z) +:+ "" = Js.toString (Js.Num z)).
    { generalize (Js.toString (Js.Num z)). intros s.
      induction s as [|c s IH]; [reflexivity|]. rewrite append_cons. now rewrite IH. }
    rewrite E, (split_whole "/" _ Hn). apply parseInt_toString.
  - rewrite (split_piece "/" _ r Hn). apply parseInt_toString.
Qed.

Lemma prefix_append (p s : string) : String.prefix p (p +:+ s) = true.
Proof.
  induction p as [|c p IH]; [destruct s; reflexivity|].
  rewrite append_cons. cbn [String.prefix]. 
  destruct (ascii_dec c c) as [_|N]; [exact IH | congruence].
Qed.

(** X5. A path built from a port number is routed back to that port: for
    every integer within the range where numbers are exact, the six routes
    that take a port read the decimal writing of the port in the fourth
    piece of the path, whether or not further pieces follow. *)
Theorem X5_route_reads_port_from_path : forall (z : Z) (tail : string),
  (Z.abs z <= 2 ^ 53)%Z ->
  tail = EmptyString \/ (exists r, tail = String "/" r) ->
  let n := Js.toString (Js.Num z) +:+ tail in
  Routes.parseInt (Js.toString (Js.Num z)) = Js.Num z
  /\ Routes.route "GET" ("/api/status/" +:+ n) = Routes.Status (Js.Num z)
  /\ Routes.route "POST" ("/api/start/" +:+ n) = Routes.Start (Js.Num z)
  /\ Routes.route "POST" ("/api/stop/" +:+ n) = Routes.Stop (Js.Num z)
  /\ Routes.route "DELETE" ("/api/services/" +:+ n) = Routes.RemoveService (Js.Num z)
  /\ Routes.route "POST" ("/api/code/" +:+ n) = Routes.OpenCode (Js.Num z)
  /\ Routes.route "POST" ("/api/finder/" +:+ n) = Routes.OpenFinder (Js.Num z).
Proof.
  intros z tail _ Htail n. split; [apply parseInt_toString|].
  assert (P : forall b, has_char "/" b = false ->
            Routes.port_of_path ("/api/" +:+ b +:+ "/" +:+ n) = Js.Num z).
  { intros b Hb.
    exact (port_of_numbered_path "api" b z tail eq_refl Hb Htail). }
  pose proof (P "status" eq_refl) as P1. pose proof (P "start" eq_refl) as P2.
  pose proof (P "stop" eq_refl) as P3. pose proof (P "services" eq_refl) as P4.
  pose proof (P "code" eq_refl) as P5. pose proof (P "finder" eq_refl) as P6.
  clear P. revert P1 P2 P3 P4 P5 P6. generalize n. clear n. intros n P1 P2 P3 P4 P5 P6.
  unfold Routes.route.
  repeat split; cbn;
    repeat match goal with
           | |- context [String.eqb (?p +:+ n) ?lit] =>
               change (String.eqb (p +:+ n) lit) with false
           | |- context [String.prefix ?p (?q +:+ n)] =>
               first [ change (String.prefix p (q +:+ n)) with false
                     | rewrite (prefix_append p n) ]
           end;
    cbn [orb]; f_equal; assumption.
Qed.

Lemma X5_route_reads_port_from_path_witness :
  Routes.route "POST" "/api/start/4000" = Routes.Start (Js.Num 4000)
  /\ Routes.route "DELETE" "/api/services/3000/any" = Routes.RemoveService (Js.Num 3000).
Proof.
  split.
  - apply (X5_route_reads_port_from_path 4000 EmptyString); [vm_compute; discriminate | auto].
  - apply (X5_route_reads_port_from_path 3000 "/any");
      [vm_compute; discriminate | right; eauto].
Defined.

(** X6. The method decides what a request can do.  A preflight request is
    answered before the path is looked at; a [GET] request only ever reaches
    the dashboard page, the listing or the status of a port, and a [DELETE]
    request only the removal of a service; a request with any other method
    than these and [POST] is not found. *)
Theorem X6_route_by_method : forall (method pathname : string),
  Routes.route "OPTIONS" pathname = Routes.CorsPreflight
  /\ match Routes.route "GET" pathname with
     | Routes.Dashboard | Routes.ListServices | Routes.Status _ | Routes.NotFound => True
     | _ => False
     end
  /\ match Routes.route "DELETE" pathname with
     | Routes.RemoveService _ | Routes.NotFound => True
     | _ => False
     end
  /\ (~ In method ["OPTIONS"; "GET"; "POST"; "DELETE"] ->
      Routes.route method pathname = Routes.NotFound).
Proof.
  intros method pathname. split; [reflexivity|]. split; [|split].
  - unfold Routes.route. cbn.
    destruct (String.eqb pathname "/" || String.eqb pathname "/index.html"); [exact I|].
    destruct (String.eqb pathname "/api/services"); [exact I|].
    destruct (String.prefix "/api/status/" pathname); exact I.
  - unfold Routes.route. cbn.
    destruct (String.prefix "/api/services/" pathname); exact I.
  - intros H. unfold Routes.route.
    destruct (String.eqb method "OPTIONS") eqn:E1;
      [apply String.eqb_eq in E1; subst; exfalso; apply H; simpl; tauto|].
    destruct (String.eqb method "GET") eqn:E2;
      [apply String.eqb_eq in E2; subst; exfalso; apply H; simpl; tauto|].
    destruct (String.eqb method "POST") eqn:E3;
      [apply String.eqb_eq in E3; subst; exfalso; apply H; simpl; tauto|].
    destruct (String.eqb method "DELETE") eqn:E4;
      [apply String.eqb_eq in E4; subst; exfalso; apply H; simpl; tauto|].
    reflexivity.
Qed.

Lemma X6_route_by_method_witness :
  Routes.route "PUT" "/api/start/4000" = Routes.NotFound.
Proof.
  apply (X6_route_by_method "PUT" "/api/start/4000").
  simpl. intros [H|[H|[H|[H|[]]]]]; discriminate H.
Defined.

Lemma not_digit_no_value (c : ascii) :
  is_digit c = false -> Routes.digit_value 10 c = None.
Proof.
  destruct c as [[] [] [] [] [] [] [] []]; intros H; try discriminate H; reflexivity.
Qed.

Lemma parseInt_not_a_number (c : ascii) (rest : string) :
  is_digit c = false -> Js.is_ws c = false -> c <> "-"%char -> c <> "+"%char ->
  Routes.parseInt (String c rest) = Js.NaN.
Proof.
  intros Hd Hws Hm Hp. apply Ascii.eqb_neq in Hm, Hp.
  assert (H0 : Ascii.eqb c "0" = false).
  { apply Ascii.eqb_neq. intros ->. discriminate Hd. }
  unfold Routes.parseInt. cbn [Js.trimStart]. rewrite Hws, Hm, Hp.
  destruct rest as [|x r]; [|rewrite H0; cbn [andb]];
    unfold Routes.leading_digits; now rewrite (not_digit_no_value c Hd).
Qed.

(** ** The views of the status aggregator *)

Lemma run_probe_all_exact (e : Env) (ss : list ServiceDescriptor) : forall t,
  run e (promise_all_map Mcp.service_status ss) t
  = (Returned (zip_with Mcp.service_view ss (List.map Mcp.port_status (probes e t ss))),
     zip_with probe_event ss (probes e t ss)).
Proof.
  induction ss as [|s ss IH]; intros t; [reflexivity|].
  cbn [promise_all_map]. rewrite run_bind.
  change (run e (Mcp.service_status s) t)
    with (Returned (Mcp.service_view s
                      (Mcp.port_status (sh_exec (e t) (lsof_cmd (Js.Num s.(port)))))),
          [EvExec (lsof_cmd (Js.Num s.(port)))
                  (sh_exec (e t) (lsof_cmd (Js.Num s.(port))))]).
  cbn [length Nat.add]. rewrite run_bind, IH. cbn. now rewrite app_nil_r.
Qed.

Lemma run_getAllServicesStatus_exact (e : Env) (t : nat) :
  let registry := registry_of (config_file (e t)) in
  run e Mcp.getAllServicesStatus t
  = (Returned (zip_with Mcp.service_view registry
                 (List.map Mcp.port_status (probes e (S t) registry))),
     EvReadConfig (config_file (e t))
       :: zip_with probe_event registry (probes e (S t) registry)).
Proof.
  intros registry. unfold Mcp.getAllServicesStatus. rewrite run_mcp_load.
  fold registry. now rewrite run_probe_all_exact.
Qed.

Lemma probes_length (e : Env) (ss : list ServiceDescriptor) : forall t,
  length (probes e t ss) = length ss.
Proof. induction ss as [|s ss IH]; intros t; simpl; [reflexivity | now rewrite IH]. Qed.

Lemma views_follow_registry (e : Env) (ss : list ServiceDescriptor) : forall t,
  Forall2 view_of ss (zip_with Mcp.service_view ss (List.map Mcp.port_status (probes e t ss))).
Proof.
  induction ss as [|s ss IH]; intros t; simpl; constructor; [|apply IH].
  eexists. reflexivity.
Qed.

Lemma probe_events_observe (ss : list ServiceDescriptor) : forall rs,
  Forall observes (zip_with probe_event ss rs).
Proof.
  induction ss as [|s ss IH]; intros [|r rs]; simpl; constructor; [|apply IH].
  eexists. reflexivity.
Qed.

(** X7. The status aggregator reads the configuration once and then probes
    the port of every descriptor once, in load order, and does nothing else.
    It resolves to one view per descriptor, in load order; a view copies the
    descriptor's name, port, path, type and start command, carries a pid
    exactly when it is running, and its url is [http://localhost:] followed by
    the port when it is running and absent otherwise. *)
Theorem X7_aggregator_views_and_probes : forall (e : Env) (t : nat),
  let c := config_file (e t) in
  let registry := registry_of c in
  let answers := probes e (S t) registry in
  exists views : list Mcp.ServiceView,
    run e Mcp.getAllServicesStatus t
    = (Returned views, EvReadConfig c :: zip_with probe_event registry answers)
    /\ length answers = length registry
    /\ length views = length registry
    /\ Forall2 (fun s v =>
                  v.(Mcp.view_name) = s.(name) /\ v.(Mcp.view_port) = s.(port)
                  /\ v.(Mcp.view_path) = s.(path) /\ v.(Mcp.view_type) = s.(type)
                  /\ v.(Mcp.view_startCmd) = s.(startCmd)
                  /\ (v.(Mcp.view_running) = true <-> v.(Mcp.view_pid) <> None)
                  /\ v.(Mcp.view_url)
                     = if v.(Mcp.view_running)
                       then Some ("http://localhost:" +:+ Js.toString (Js.Num s.(port)))
                       else None)
               registry views
    /\ Forall observes (EvReadConfig c :: zip_with probe_event registry answers).
Proof.
  intros e t c registry answers.
  exists (zip_with Mcp.service_view registry (List.map Mcp.port_status answers)).
  split; [apply run_getAllServicesStatus_exact|].
  split; [apply probes_length|].
  pose proof (views_follow_registry e registry (S t)) as Hv. fold answers in Hv.
  split; [symmetry; eapply Forall2_length; exact Hv|].
  split.
  - eapply Forall2_impl; [exact Hv|]. intros s v [r ->].
    destruct (mcp_status_shape r) as [E | (a & h & E & _)];
      unfold Mcp.service_view; rewrite E; cbn;
      repeat split; try reflexivity; try discriminate; congruence.
  - constructor; [exact I | apply probe_events_observe].
Qed.

(** ** The tool calls *)



Lemma try_catch_never_throws {A} (e : Env) (p : Prog A) (h : string -> A) (t : nat) :
  match fst (run e (try_catch p (fun msg => Ret (h msg))) t) with
  | Thrown _ => False
  | _ => True
  end.
Proof.
  rewrite run_try_catch. destruct (run e p t) as [[a|m|m] tr]; exact I.
Qed.

Lemma call_list_services HOME penv (e : Env) (t : nat) (args : Mcp.ToolArgs) :
  exists text,
    run e (Mcp.call_tool HOME penv "list_services" args) t
    = (Returned (Mcp.ok_text text),
       EvReadConfig (config_file (e t))
         :: zip_with probe_event (registry_of (config_file (e t)))
              (probes e (S t) (registry_of (config_file (e t))))).
Proof.
  change (Mcp.call_tool HOME penv "list_services" args)
    with (try_catch (Mcp.list_services args)
            (fun msg => Ret {| Mcp.text := "Error: " +:+ msg; Mcp.isError := true |})).
  rewrite run_try_catch. unfold Mcp.list_services. rewrite run_bind.
  rewrite (run_getAll e t _ _ _ (run_getAllServicesStatus_exact e t)).
  cbn [run]. rewrite app_nil_r. eexists. reflexivity.
Qed.

Lemma call_quick_status HOME penv (e : Env) (t : nat) (args : Mcp.ToolArgs) :
  exists text,
    run e (Mcp.call_tool HOME penv "quick_status" args) t
    = (Returned (Mcp.ok_text text),
       EvReadConfig (config_file (e t))
         :: zip_with probe_event (registry_of (config_file (e t)))
              (probes e (S t) (registry_of (config_file (e t))))).
Proof.
  change (Mcp.call_tool HOME penv "quick_status" args)
    with (try_catch Mcp.quick_status
            (fun msg => Ret {| Mcp.text := "Error: " +:+ msg; Mcp.isError := true |})).
  rewrite run_try_catch. unfold Mcp.quick_status. rewrite run_bind.
  rewrite (run_getAllServicesStatus_exact e t).
  cbn [run]. rewrite app_nil_r. eexists. reflexivity.
Qed.

Lemma call_check_port HOME penv (e : Env) (t : nat) (args : Mcp.ToolArgs) :
  exists text,
    run e (Mcp.call_tool HOME penv "check_port" args) t
    = (Returned (Mcp.ok_text text),
       [EvExec (lsof_cmd args.(Mcp.arg_port))
               (sh_exec (e t) (lsof_cmd args.(Mcp.arg_port)));
        EvReadConfig (config_file (e (S t)))]).
Proof.
  change (Mcp.call_tool HOME penv "check_port" args)
    with (try_catch (Mcp.check_port args)
            (fun msg => Ret {| Mcp.text := "Error: " +:+ msg; Mcp.isError := true |})).
  rewrite run_try_catch. unfold Mcp.check_port, Mcp.checkPort. cbn [bind run].
  rewrite run_mcp_load. cbn [run]. eexists. reflexivity.
Qed.

Lemma call_get_service_info HOME penv (e : Env) (t : nat) (args : Mcp.ToolArgs) :
  let p := args.(Mcp.arg_port) in
  exists text,
    run e (Mcp.call_tool HOME penv "get_service_info" args) t
    = (Returned (Mcp.ok_text text),
       EvReadConfig (config_file (e t))
         :: match services_find (registry_of (config_file (e t))) p with
            | Some _ => [EvExec (lsof_cmd p) (sh_exec (e (S t)) (lsof_cmd p))]
            | None => []
            end).
Proof.
  intros p.
  change (Mcp.call_tool HOME penv "get_service_info" args)
    with (try_catch (Mcp.get_service_info args)
            (fun msg => Ret {| Mcp.text := "Error: " +:+ msg; Mcp.isError := true |})).
  rewrite run_try_catch. unfold Mcp.get_service_info. rewrite run_mcp_load. fold p.
  destruct (services_find _ p) as [s|]; cbn; eexists; reflexivity.
Qed.

Lemma last_char_append (s lit : string) (a : ascii) : forall d,
  last_char (s +:+ String a lit) d = last_char lit a.
Proof.
  induction s as [|c s IH]; intros d; [reflexivity|].
  rewrite append_cons. cbn [last_char]. apply IH.
Qed.

Lemma lsof_never_kills (q p : Js.num) : String.eqb (lsof_cmd q) (kill_cmd p) = false.
Proof.
  apply String.eqb_neq. unfold lsof_cmd, kill_cmd. intros H.
  apply append_inj_l in H.
  apply (f_equal (fun s => last_char s " "%char)) in H.
  change (Js.toString p +:+ " -t | xargs kill -9 2>/dev/null")
    with (Js.toString p +:+ String " " "-t | xargs kill -9 2>/dev/null") in H.
  change (Js.toString q +:+ " -t") with (Js.toString q +:+ String " " "-t") in H.
  rewrite !last_char_append in H. discriminate H.
Qed.

Lemma observing_trace_harmless (tr : list Event) (p : Js.num) :
  Forall observes tr -> spawns tr = 0%nat /\ kills p tr = 0%nat.
Proof.
  unfold spawns, kills.
  induction 1 as [|ev tr Hev _ [IH1 IH2]]; [split; reflexivity|].
  destruct ev; cbn [observes] in Hev; try contradiction; cbn [List.filter is_spawn].
  - split; assumption.
  - destruct Hev as [q ->]. rewrite lsof_never_kills. split; assumption.
Qed.

(** X8. The four tools that report (the listing, the port check, the
    service information and the quick status) end with an answer, and
    whatever the answer says, all they do to the outside is read the
    configuration and inspect ports: they launch nothing, issue the
    termination command for no port and write nothing.  The information tool
    inspects the port only when it is configured.  Nothing is said of the
    answer's text or of its error flag. *)
Theorem X8_reporting_tools_only_observe :
  forall (HOME : string) (penv : gmap string string) (e : Env) (t : nat)
         (tool : string) (args : Mcp.ToolArgs),
    In tool ["list_services"; "check_port"; "get_service_info"; "quick_status"] ->
    exists (answer : Mcp.ToolResult) (tr : list Event),
      run e (Mcp.call_tool HOME penv tool args) t = (Returned answer, tr)
      /\ Forall observes tr
      /\ spawns tr = 0%nat /\ (forall q : Js.num, kills q tr = 0%nat)
      /\ (tool = "get_service_info" ->
          services_find (registry_of (config_file (e t))) args.(Mcp.arg_port) = None ->
          tr = [EvReadConfig (config_file (e t))]).
Proof.
  intros HOME penv e t tool args Htool.
  assert (Hprobes : Forall observes
            (EvReadConfig (config_file (e t))
               :: zip_with probe_event (registry_of (config_file (e t)))
                    (probes e (S t) (registry_of (config_file (e t)))))).
  { constructor; [exact I | apply probe_events_observe]. }
  destruct Htool as [<- | [<- | [<- | [<- | []]]]].
  - destruct (call_list_services HOME penv e t args) as [text H].
    eexists _, _. split; [exact H|]. split; [exact Hprobes|].
    split; [exact (proj1 (observing_trace_harmless _ (Js.Num 0) Hprobes))|].
    split; [exact (fun q => proj2 (observing_trace_harmless _ q Hprobes))|].
    intros Hd. discriminate Hd.
  - destruct (call_check_port HOME penv e t args) as [text H].
    assert (Ho : Forall observes
              [EvExec (lsof_cmd args.(Mcp.arg_port))
                      (sh_exec (e t) (lsof_cmd args.(Mcp.arg_port)));
               EvReadConfig (config_file (e (S t)))]).
    { repeat constructor. eexists. reflexivity. }
    eexists _, _. split; [exact H|]. split; [exact Ho|].
    split; [exact (proj1 (observing_trace_harmless _ (Js.Num 0) Ho))|].
    split; [exact (fun q => proj2 (observing_trace_harmless _ q Ho))|].
    intros Hd. discriminate Hd.
  - destruct (call_get_service_info HOME penv e t args) as [text H].
    assert (Ho : Forall observes
              (EvReadConfig (config_file (e t))
                 :: match services_find (registry_of (config_file (e t)))
                            args.(Mcp.arg_port) with
                    | Some _ => [EvExec (lsof_cmd args.(Mcp.arg_port))
                                        (sh_exec (e (S t)) (lsof_cmd args.(Mcp.arg_port)))]
                    | None => []
                    end)).
    { constructor; [exact I|]. destruct (services_find _ _); repeat constructor.
      eexists. reflexivity. }
    eexists _, _. split; [exact H|]. split; [exact Ho|].
    split; [exact (proj1 (observing_trace_harmless _ (Js.Num 0) Ho))|].
    split; [exact (fun q => proj2 (observing_trace_harmless _ q Ho))|].
    intros _ Hnone. now rewrite Hnone.
  - destruct (call_quick_status HOME penv e t args) as [text H].
    eexists _, _. split; [exact H|]. split; [exact Hprobes|].
    split; [exact (proj1 (observing_trace_harmless _ (Js.Num 0) Hprobes))|].
    split; [exact (fun q => proj2 (observing_trace_harmless _ q Hprobes))|].
    intros Hd. discriminate Hd.
Qed.

Lemma X8_reporting_tools_only_observe_witness :
  let e := always (world (Parsed {| services := [web; api] |}) (fun _ => true)
                         (fun _ => lsof_silent)) in
  exists answer tr,
    run e (Mcp.call_tool home ∅ "get_service_info"
             {| Mcp.arg_filter := None; Mcp.arg_port := Js.Num 5000 |}) 0
    = (Returned answer, tr)
    /\ tr = [EvReadConfig (Parsed {| services := [web; api] |})]
    /\ kills (Js.Num 3000) tr = 0%nat.
Proof.
  intros e.
  destruct (X8_reporting_tools_only_observe home ∅ e 0 "get_service_info"
              {| Mcp.arg_filter := None; Mcp.arg_port := Js.Num 5000 |})
    as (answer & tr & H & _ & _ & Hk & Htr).
  { simpl. auto. }
  exists answer, tr. split; [exact H|]. split; [now apply Htr | apply Hk].
Defined.

Lemma mcp_stop_bound (e : Env) (t : nat) (p : Js.num) :
  (Mcp.port_status (sh_exec (e t) (lsof_cmd p))).(running) = true ->
  run e (Mcp.stopService p) t
  = (Returned (Mcp.StopOk ("Stopped service on port " +:+ Js.toString p)),
     [EvExec (lsof_cmd p) (sh_exec (e t) (lsof_cmd p));
      EvExec (kill_cmd p) (sh_exec (e (S t)) (kill_cmd p))]).
Proof.
  intros H. unfold Mcp.stopService, Mcp.checkPort. cbn [bind run].
  rewrite H. reflexivity.
Qed.

(** X9. On the tool-call server, stop on a port whose probe reports an
    owner hands the shell the termination command for that port, once, and
    answers "Stopped service" whatever that command comes to: its error is
    not looked at and the port is not probed again. *)
Theorem X9_stop_on_bound_port :
  forall (HOME : string) (penv : gmap string string) (e : Env) (t : nat)
         (args : Mcp.ToolArgs),
    let p := args.(Mcp.arg_port) in
    let probe := sh_exec (e t) (lsof_cmd p) in
    (Mcp.port_status probe).(running) = true ->
    let success := "Stopped service on port " +:+ Js.toString p in
    let tr := [EvExec (lsof_cmd p) probe;
               EvExec (kill_cmd p) (sh_exec (e (1 + t)%nat) (kill_cmd p))] in
    kills p tr = 1%nat /\ execs tr = 2%nat
    /\ run e (Mcp.stopService p) t = (Returned (Mcp.StopOk success), tr)
    /\ run e (Mcp.call_tool HOME penv "stop_service" args) t
       = (Returned {| Mcp.text := "✅ " +:+ success; Mcp.isError := false |}, tr).
Proof.
  intros HOME penv e t args p probe H success tr.
  pose proof (mcp_stop_bound e t p H) as Hm.
  split; [|split; [reflexivity|split; [exact Hm|]]].
  - unfold kills, tr. cbn [List.filter].
    now rewrite lsof_never_kills, String.eqb_refl.
  - exact (run_stop_service_tool HOME penv e t args _ _ Hm).
Qed.

Lemma X9_stop_on_bound_port_witness :
  let w := world (Parsed {| services := [api] |}) (fun _ => true)
                 (fun _ => lsof_lists ["4242"]) in
  run (always w) (Mcp.stopService (Js.Num 4000)) 0
  = (Returned (Mcp.StopOk "Stopped service on port 4000"),
     [EvExec "lsof -i :4000 -t" (lsof_lists ["4242"]);
      EvExec "lsof -i :4000 -t | xargs kill -9 2>/dev/null" (lsof_lists ["4242"])]).
Proof.
  intros w.
  destruct (X9_stop_on_bound_port home ∅ (always w) 0
              {| Mcp.arg_filter := None; Mcp.arg_port := Js.Num 4000 |} eq_refl)
    as (_ & _ & Hm & _).
  exact Hm.
Defined.

(** The start of a configured service whose directory exists and whose port
    is free, up to what the launch leads to. *)
Lemma mcp_start_launch HOME penv (e : Env) (t : nat) (p : Js.num) (s : ServiceDescriptor) :
  services_find (registry_of (config_file (e t))) p = Some s ->
  fs_exists (e (S t)) (Mcp.expandPath HOME s.(path)) = true ->
  (Mcp.port_status (sh_exec (e (S (S t))) (lsof_cmd p))).(running) = false ->
  let dir := Mcp.expandPath HOME s.(path) in
  let cmd := fst (parse_startCmd s.(startCmd)) in
  let args := snd (parse_startCmd s.(startCmd)) in
  let opts := {| cwd := dir; shell := true; detached := true; stdio := StdioIgnore;
                 env := <["PORT" := Js.toString p]> penv |} in
  let child := os_spawn (e (S (S (S t)))) cmd args opts in
  let pre := [EvReadConfig (config_file (e t)); EvExistsSync dir true;
              EvExec (lsof_cmd p) (sh_exec (e (S (S t))) (lsof_cmd p));
              EvSpawn cmd args opts child] in
  run e (Mcp.startService HOME penv p) t
  = match child with
    | SpawnThrows msg => (Thrown msg, pre)
    | SpawnError msg => (Crashed msg, pre ++ [EvSetTimeout 2000])
    | Spawned _ =>
        let probe' := sh_exec (e (S (S (S (S (S t)))))) (lsof_cmd p) in
        let started := (Mcp.port_status probe').(running) in
        (Returned (Mcp.StartOk s.(name) p started
                     (if started
                      then "Started " +:+ s.(name) +:+ " on port " +:+ Js.toString p
                      else "Start command sent, but service may still be initializing")),
         pre ++ [EvSetTimeout 2000; EvExec (lsof_cmd p) probe'])
    end.
Proof.
  intros H Hdir Hprobe dir cmd args opts child. subst dir cmd args opts child.
  unfold Mcp.startService. rewrite run_mcp_load, H.
  cbn [run]. rewrite Hdir. cbn [negb Mcp.checkPort bind run]. rewrite Hprobe.
  cbn [parse_startCmd fst snd run].
  destruct (os_spawn _ _ _ _) as [msg|msg|child_pid]; reflexivity.
Qed.

(** X10. On the tool-call server, for every configured descriptor whose
    directory exists and whose port is free, start launches the first word of
    the start command with the other words as arguments, through a shell,
    detached, in the expanded directory; the child's environment is the
    server's with [PORT] set to the port, in place of any [PORT] the server
    had.  Once the child runs, start waits 2000 ms, probes once more and
    answers success with [started] as that probe found the port: "Started ..."
    when it is bound, the caveat when it is not.  Exactly one process is
    launched and nothing is stopped. *)
Theorem X10_start_launches_and_reports :
  forall (HOME : string) (penv : gmap string string) (e : Env) (t : nat)
         (p : Js.num) (s : ServiceDescriptor) (child_pid : Z),
    let dir := Mcp.expandPath HOME s.(path) in
    let cmd := fst (parse_startCmd s.(startCmd)) in
    let args := snd (parse_startCmd s.(startCmd)) in
    let opts := {| cwd := dir; shell := true; detached := true; stdio := StdioIgnore;
                   env := <["PORT" := Js.toString p]> penv |} in
    let probe := sh_exec (e (2 + t)%nat) (lsof_cmd p) in
    let probe' := sh_exec (e (5 + t)%nat) (lsof_cmd p) in
    services_find (registry_of (config_file (e t))) p = Some s ->
    fs_exists (e (1 + t)%nat) dir = true ->
    (Mcp.port_status probe).(running) = false ->
    os_spawn (e (3 + t)%nat) cmd args opts = Spawned child_pid ->
    let started := (Mcp.port_status probe').(running) in
    let tr := [EvReadConfig (config_file (e t)); EvExistsSync dir true;
               EvExec (lsof_cmd p) probe; EvSpawn cmd args opts (Spawned child_pid);
               EvSetTimeout 2000; EvExec (lsof_cmd p) probe'] in
    run e (Mcp.startService HOME penv p) t
    = (Returned (Mcp.StartOk s.(name) p started
                   (if started
                    then "Started " +:+ s.(name) +:+ " on port " +:+ Js.toString p
                    else "Start command sent, but service may still be initializing")),
       tr)
    /\ spawns tr = 1%nat /\ kills p tr = 0%nat
    /\ opts.(env) !! "PORT" = Some (Js.toString p)
    /\ (forall k, k <> "PORT" -> opts.(env) !! k = penv !! k).
Proof.
  intros HOME penv e t p s child_pid dir cmd args opts probe probe' H Hdir Hprobe Hspawn
         started tr.
  pose proof (mcp_start_launch HOME penv e t p s H Hdir Hprobe) as Hm.
  cbv zeta in Hm. fold dir cmd args opts in Hm.
  change (os_spawn (e (S (S (S t)))) cmd args opts)
    with (os_spawn (e (3 + t)%nat) cmd args opts) in Hm.
  rewrite Hspawn in Hm.
  split; [exact Hm|]. split; [reflexivity|]. split.
  - unfold kills, tr. cbn [List.filter]. now rewrite !lsof_never_kills.
  - split; [apply lookup_insert_eq|]. intros k Hk. now apply lookup_insert_ne.
Qed.

Lemma X10_start_launches_and_reports_witness :
  let w := world (Parsed {| services := [web] |}) (fun _ => true) (fun _ => lsof_silent) in
  fst (run (always w) (Mcp.startService home {["PORT" := "80"]} (Js.Num 3000)) 0)
  = Returned (Mcp.StartOk "web" (Js.Num 3000) false
                "Start command sent, but service may still be initializing").
Proof.
  intros w.
  destruct (X10_start_launches_and_reports home {["PORT" := "80"]} (always w) 0
              (Js.Num 3000) web 777 eq_refl eq_refl eq_refl eq_refl) as [Hm _].
  exact (f_equal fst Hm).
Defined.

(** X11. When the launch itself throws (as [spawn] does for an empty
    command), start on the tool-call server ends there: no timer is set and
    the port is not probed again, and the tool answers "Error:" followed by
    the message, with the error flag. *)
Theorem X11_start_launch_throws :
  forall (HOME : string) (penv : gmap string string) (e : Env) (t : nat)
         (args : Mcp.ToolArgs) (s : ServiceDescriptor) (msg : string),
    let p := args.(Mcp.arg_port) in
    let dir := Mcp.expandPath HOME s.(path) in
    let cmd := fst (parse_startCmd s.(startCmd)) in
    let cmd_args := snd (parse_startCmd s.(startCmd)) in
    let opts := {| cwd := dir; shell := true; detached := true; stdio := StdioIgnore;
                   env := <["PORT" := Js.toString p]> penv |} in
    let probe := sh_exec (e (2 + t)%nat) (lsof_cmd p) in
    services_find (registry_of (config_file (e t))) p = Some s ->
    fs_exists (e (1 + t)%nat) dir = true ->
    (Mcp.port_status probe).(running) = false ->
    os_spawn (e (3 + t)%nat) cmd cmd_args opts = SpawnThrows msg ->
    run e (Mcp.call_tool HOME penv "start_service" args) t
    = (Returned {| Mcp.text := "Error: " +:+ msg; Mcp.isError := true |},
       [EvReadConfig (config_file (e t)); EvExistsSync dir true;
        EvExec (lsof_cmd p) probe; EvSpawn cmd cmd_args opts (SpawnThrows msg)]).
Proof.
  intros HOME penv e t args s msg p dir cmd cmd_args opts probe H Hdir Hprobe Hspawn.
  pose proof (mcp_start_launch HOME penv e t p s H Hdir Hprobe) as Hm.
  cbv zeta in Hm. fold dir cmd cmd_args opts in Hm.
  change (os_spawn (e (S (S (S t)))) cmd cmd_args opts)
    with (os_spawn (e (3 + t)%nat) cmd cmd_args opts) in Hm.
  rewrite Hspawn in Hm.
  change (Mcp.call_tool HOME penv "start_service" args)
    with (try_catch (Mcp.start_service HOME penv args)
            (fun msg => Ret {| Mcp.text := "Error: " +:+ msg; Mcp.isError := true |})).
  rewrite run_try_catch. unfold Mcp.start_service. rewrite run_bind. fold p.
  rewrite Hm. cbn [run]. now rewrite app_nil_r.
Qed.

Lemma X11_start_launch_throws_witness :
  let w := with_spawn picky_spawn
             (world (Parsed {| services := [blank_start] |}) (fun _ => true)
                    (fun _ => lsof_silent)) in
  fst (run (always w) (Mcp.call_tool home ∅ "start_service"
                         {| Mcp.arg_filter := None; Mcp.arg_port := Js.Num 7000 |}) 0)
  = Returned {| Mcp.text := "Error: The argument 'file' cannot be empty";
                Mcp.isError := true |}.
Proof.
  intros w.
  exact (f_equal fst
           (X11_start_launch_throws home ∅ (always w) 0
              {| Mcp.arg_filter := None; Mcp.arg_port := Js.Num 7000 |} blank_start
              "The argument 'file' cannot be empty" eq_refl eq_refl eq_refl eq_refl)).
Defined.

Lemma call_stop_service HOME penv (e : Env) (t : nat) (args : Mcp.ToolArgs) :
  exists r tr, run e (Mcp.call_tool HOME penv "stop_service" args) t = (Returned r, tr).
Proof.
  destruct (running (Mcp.port_status (sh_exec (e t) (lsof_cmd args.(Mcp.arg_port)))))
    eqn:E.
  - eexists _, _. exact (run_stop_service_tool HOME penv e t args _ _ (mcp_stop_bound e t _ E)).
  - eexists _, _.
    exact (run_stop_service_tool HOME penv e t args _ _ (mcp_stop_unbound e t _ E)).
Qed.

Lemma call_unknown_tool HOME penv (e : Env) (t : nat) (tool : string) (args : Mcp.ToolArgs) :
  ~ In tool (List.map tool_name list_tools) ->
  run e (Mcp.call_tool HOME penv tool args) t
  = (Returned {| Mcp.text := "Unknown tool: " +:+ tool; Mcp.isError := true |}, []).
Proof.
  intros H. unfold Mcp.call_tool.
  repeat match goal with
         | |- context [String.eqb tool ?name] =>
             let E := fresh "E" in
             destruct (String.eqb tool name) eqn:E;
             [apply String.eqb_eq in E; subst tool; exfalso; apply H; simpl; tauto|]
         end.
  reflexivity.
Qed.

(** X12. A tool call never throws: whatever the tool's name, its
    arguments and the outside, the handler ends with an answer or, for
    [start_service] alone, with the server's death on a launch error.  Every
    tool but [start_service] always answers. *)
Theorem X12_tool_call_never_throws :
  forall (HOME : string) (penv : gmap string string) (e : Env) (t : nat)
         (tool : string) (args : Mcp.ToolArgs),
    match fst (run e (Mcp.call_tool HOME penv tool args) t) with
    | Thrown _ => False
    | _ => True
    end
    /\ (tool <> "start_service" ->
        exists r, fst (run e (Mcp.call_tool HOME penv tool args) t) = Returned r).
Proof.
  intros HOME penv e t tool args. split.
  - unfold Mcp.call_tool. apply try_catch_never_throws.
  - intros Hne.
    destruct (in_dec string_dec tool (List.map tool_name list_tools)) as [Hin|Hout].
    + simpl in Hin.
      destruct Hin as [<- | [<- | [<- | [<- | [<- | [<- | []]]]]]]; try congruence.
      * destruct (call_list_services HOME penv e t args) as [text ->]. eauto.
      * destruct (call_check_port HOME penv e t args) as [text ->]. eauto.
      * destruct (call_stop_service HOME penv e t args) as (r & tr & ->). eauto.
      * destruct (call_get_service_info HOME penv e t args) as [text ->]. eauto.
      * destruct (call_quick_status HOME penv e t args) as [text ->]. eauto.
    + rewrite (call_unknown_tool HOME penv e t tool args Hout). eauto.
Qed.

Lemma X12_tool_call_never_throws_witness :
  let e := always (world (ReadFails "ENOENT") (fun _ => false) (fun _ => lsof_silent)) in
  exists r,
    fst (run e (Mcp.call_tool home ∅ "quick_status"
                  {| Mcp.arg_filter := None; Mcp.arg_port := Js.NaN |}) 0) = Returned r.
Proof.
  intros e.
  apply (X12_tool_call_never_throws home ∅ e 0 "quick_status"
           {| Mcp.arg_filter := None; Mcp.arg_port := Js.NaN |}).
  discriminate.
Defined.




(** ** The HTTP server's start, listing and editor routes *)

(** X14. The HTTP start of a configured service whose directory exists logs
    the command, launches it with [PORT] set to the descriptor's port and
    never inspects the port.  When the child runs, the route records its pid,
    name and start time under the port, sets the 1000 ms timer and answers
    200 with the pid when it fires.  When the child emits an error, the entry
    has been recorded, without a pid, and the 1000 ms timer set by then; the
    route answers 500 with the child's message and the entry stays.  When
    the launch throws, the route answers 500; nothing is recorded and no
    timer is set. *)
Theorem X14_http_start_outcomes :
  forall (HOME : string) (penv : gmap string string) (e : Env) (t : nat)
         (p : Js.num) (doc : Config) (s : ServiceDescriptor),
    config_file (e t) = Parsed doc ->
    services_find doc.(services) p = Some s ->
    fs_exists (e (1 + t)%nat) (Http.expandPath HOME s.(path)) = true ->
    let dir := Http.expandPath HOME s.(path) in
    let cmd := fst (parse_startCmd s.(startCmd)) in
    let args := snd (parse_startCmd s.(startCmd)) in
    let opts := {| cwd := dir; shell := true; detached := true; stdio := StdioPiped;
                   env := <["PORT" := Js.toString (Js.Num s.(port))]> penv |} in
    let child := os_spawn (e (3 + t)%nat) cmd args opts in
    let now := clock (e (4 + t)%nat) in
    let pre := [EvReadConfig (Parsed doc); EvExistsSync dir true;
                EvConsoleLog ("Starting " +:+ s.(name) +:+ " in " +:+ dir +:+ ": "
                              +:+ s.(startCmd));
                EvSpawn cmd args opts child] in
    let entry pid := {| entry_pid := pid; entry_name := s.(name); startedAt := now |} in
    run e (Http.post_start HOME penv p) t
    = match child with
      | Spawned child_pid =>
          (Returned {| Http.statusCode := 200; Http.body := Http.BodyStarted child_pid |},
           pre ++ [EvNewDate now; EvProcSet s.(port) (entry (Some child_pid));
                   EvSetTimeout 1000])
      | SpawnError msg =>
          (Returned {| Http.statusCode := 500; Http.body := Http.BodyError msg |},
           pre ++ [EvNewDate now; EvProcSet s.(port) (entry None); EvSetTimeout 1000])
      | SpawnThrows msg =>
          (Returned {| Http.statusCode := 500; Http.body := Http.BodyError msg |}, pre)
      end
    /\ execs (snd (run e (Http.post_start HOME penv p) t)) = 0%nat
    /\ spawns (snd (run e (Http.post_start HOME penv p) t)) = 1%nat.
Proof.
  intros HOME penv e t p doc s Hc H Hdir dir cmd args opts child now pre entry.
  assert (Hrun : run e (Http.post_start HOME penv p) t
                 = match child with
                   | Spawned child_pid =>
                       (Returned {| Http.statusCode := 200;
                                    Http.body := Http.BodyStarted child_pid |},
                        pre ++ [EvNewDate now; EvProcSet s.(port) (entry (Some child_pid));
                                EvSetTimeout 1000])
                   | SpawnError msg =>
                       (Returned {| Http.statusCode := 500;
                                    Http.body := Http.BodyError msg |},
                        pre ++ [EvNewDate now; EvProcSet s.(port) (entry None);
                                EvSetTimeout 1000])
                   | SpawnThrows msg =>
                       (Returned {| Http.statusCode := 500;
                                    Http.body := Http.BodyError msg |}, pre)
                   end).
  { subst dir cmd args opts child now pre entry. cbn [Nat.add] in *.
    unfold Http.post_start. rewrite (run_http_load e t _ doc Hc), H.
    rewrite run_try_catch, run_bind. unfold Http.startService.
    cbn [run]. rewrite Hdir. cbn [negb parse_startCmd fst snd run].
    destruct (os_spawn _ _ _ _) as [msg|msg|child_pid]; reflexivity. }
  split; [exact Hrun|]. rewrite Hrun.
  destruct child; split; reflexivity.
Qed.

Lemma X14_http_start_outcomes_witness :
  let w := with_spawn failing_spawn
             (world (Parsed {| services := [api] |}) (fun _ => true)
                    (fun _ => lsof_silent)) in
  fst (run (always w) (Http.post_start home ∅ (Js.Num 4000)) 0)
  = Returned {| Http.statusCode := 500;
                Http.body := Http.BodyError "spawn /bin/sh ENOENT" |}
  /\ List.last (snd (run (always w) (Http.post_start home ∅ (Js.Num 4000)) 0))
               (EvSetTimeout 0)
     = EvSetTimeout 1000.
Proof.
  intros w.
  destruct (X14_http_start_outcomes home ∅ (always w) 0 (Js.Num 4000)
              {| services := [api] |} api eq_refl eq_refl eq_refl) as [H _].
  split; [exact (f_equal fst H)|].
  exact (f_equal (fun r => List.last (snd r) (EvSetTimeout 0)) H).
Defined.

Lemma run_http_probe_all (e : Env) (ss : list ServiceDescriptor) : forall t,
  run e (promise_all_map Routes.service_status ss) t
  = (Returned (zip_with pair ss (List.map Http.port_status (probes e t ss))),
     zip_with probe_event ss (probes e t ss)).
Proof.
  induction ss as [|s ss IH]; intros t; [reflexivity|].
  cbn [promise_all_map]. rewrite run_bind.
  change (run e (Routes.service_status s) t)
    with (Returned (s, Http.port_status (sh_exec (e t) (lsof_cmd (Js.Num s.(port))))),
          [EvExec (lsof_cmd (Js.Num s.(port)))
                  (sh_exec (e t) (lsof_cmd (Js.Num s.(port))))]).
  cbn [length Nat.add]. rewrite run_bind, IH. cbn. now rewrite app_nil_r.
Qed.

Lemma zip_pair_fst {A B} (l : list A) : forall (l' : list B),
  length l' = length l -> List.map fst (zip_with pair l l') = l.
Proof.
  induction l as [|a l IH]; intros [|b l'] H; simpl in *; try discriminate; [reflexivity|].
  f_equal. apply IH. lia.
Qed.

(** X15. The listing route reads the configuration once, probes the port
    of every descriptor once, in load order, and answers 200 with one element
    per descriptor, in load order, each holding its descriptor unchanged next
    to the status of its port.  It does nothing else to the outside. *)
Theorem X15_http_listing :
  forall (e : Env) (t : nat) (doc : Config),
    config_file (e t) = Parsed doc ->
    let answers := probes e (S t) doc.(services) in
    let views := zip_with pair doc.(services) (List.map Http.port_status answers) in
    let tr := EvReadConfig (Parsed doc) :: zip_with probe_event doc.(services) answers in
    run e Routes.get_services t
    = (Returned {| Routes.replyCode := 200; Routes.json := Routes.JServices views |}, tr)
    /\ List.map fst views = doc.(services)
    /\ length views = length doc.(services)
    /\ Forall observes tr.
Proof.
  intros e t doc Hc answers views tr. split; [|split; [|split]].
  - unfold Routes.get_services. rewrite run_try_catch, run_bind.
    unfold Routes.getAllStatus. rewrite (run_http_load e t _ doc Hc).
    rewrite run_http_probe_all. cbn. now rewrite app_nil_r.
  - apply zip_pair_fst. unfold answers. now rewrite length_map, probes_length.
  - transitivity (length (List.map fst views)); [now rewrite length_map|].
    f_equal. apply zip_pair_fst. unfold answers. now rewrite length_map, probes_length.
  - constructor; [exact I | apply probe_events_observe].
Qed.

Lemma X15_http_listing_witness :
  let doc := {| services := [web; api] |} in
  let e := always (world (Parsed doc) (fun _ => true) (fun _ => lsof_lists ["4242"])) in
  fst (run e Routes.get_services 0)
  = Returned {| Routes.replyCode := 200;
                Routes.json := Routes.JServices
                  [(web, {| running := true; pid := Some "4242" |});
                   (api, {| running := true; pid := Some "4242" |})] |}.
Proof.
  intros doc e.
  destruct (X15_http_listing e 0 doc eq_refl) as [H _].
  exact (f_equal fst H).
Defined.

(** ** The configuration file under the HTTP routes *)

(** X16. When the read of the configuration fails or its text is not JSON,
    the listing route and the add route answer 500 with the message of the
    failure, and the add route writes nothing; the start route, the remove
    route and the two editor routes have no [try] around the read: they throw
    and send no answer. *)
Theorem X16_http_unusable_configuration :
  forall (HOME : string) (penv : gmap string string) (e : Env) (t : nat)
         (p : Js.num) (d : ServiceDescriptor) (msg : string),
    config_file (e t) = ReadFails msg \/ config_file (e t) = ParseFails msg ->
    let tr := [EvReadConfig (config_file (e t))] in
    run e Routes.get_services t
    = (Returned {| Routes.replyCode := 500; Routes.json := Routes.JError msg |}, tr)
    /\ run e (Routes.post_services (Routes.Descriptor d)) t
       = (Returned {| Http.statusCode := 500; Http.body := Http.BodyError msg |}, tr)
    /\ run e (Http.post_start HOME penv p) t = (Thrown msg, tr)
    /\ run e (Http.delete_service p) t = (Thrown msg, tr)
    /\ run e (Routes.post_code HOME p) t = (Thrown msg, tr)
    /\ run e (Routes.post_finder HOME p) t = (Thrown msg, tr).
Proof.
  intros HOME penv e t p d msg Hc tr. subst tr.
  unfold Routes.get_services, Routes.getAllStatus, Routes.post_services,
    Http.post_start, Http.delete_service, Routes.post_code, Routes.post_finder,
    Routes.open_in, Http.loadServices.
  destruct Hc as [Hc | Hc]; cbn [bind try_catch run]; rewrite Hc;
    repeat split; reflexivity.
Qed.

Lemma X16_http_unusable_configuration_witness :
  let e := always (world (ParseFails "Unexpected end of JSON input") (fun _ => true)
                         (fun _ => lsof_silent)) in
  run e Routes.get_services 0
  = (Returned {| Routes.replyCode := 500;
                 Routes.json := Routes.JError "Unexpected end of JSON input" |},
     [EvReadConfig (ParseFails "Unexpected end of JSON input")])
  /\ run e (Http.post_start home ∅ (Js.Num 4000)) 0
     = (Thrown "Unexpected end of JSON input",
        [EvReadConfig (ParseFails "Unexpected end of JSON input")]).
Proof.
  intros e.
  destruct (X16_http_unusable_configuration home ∅ e 0 (Js.Num 4000) api
              "Unexpected end of JSON input" (or_intror eq_refl))
    as (H1 & _ & H2 & _).
  split; [exact H1 | exact H2].
Defined.

Lemma run_post_services (e : Env) (t : nat) (d : ServiceDescriptor) (doc : Config) :
  config_file (e t) = Parsed doc ->
  let written := {| services := doc.(services) ++ [d] |} in
  run e (Routes.post_services (Routes.Descriptor d)) t
  = (match fs_write (e (S t)) written with
     | None => Returned {| Http.statusCode := 200; Http.body := Http.BodySuccess |}
     | Some msg => Returned {| Http.statusCode := 500; Http.body := Http.BodyError msg |}
     end,
     [EvReadConfig (Parsed doc); EvWriteConfig written (fs_write (e (S t)) written)]).
Proof.
  intros Hc written. unfold Routes.post_services. cbn [try_catch run]. rewrite Hc.
  cbn [try_catch run]. fold written. destruct (fs_write _ _); reflexivity.
Qed.

(** X17. The add route hands the write the document it read with the new
    descriptor appended: the descriptors already there stay in place and
    order, and the new one comes last, whether or not its port is already
    configured.  It answers 200 when the write goes through and 500 with the
    message when it fails; on a body that is not JSON it answers 500 and
    neither reads nor writes. *)
Theorem X17_add_service_appends :
  forall (e : Env) (t : nat) (d : ServiceDescriptor) (doc : Config) (msg : string),
    run e (Routes.post_services (Routes.Malformed msg)) t
    = (Returned {| Http.statusCode := 500; Http.body := Http.BodyError msg |}, [])
    /\ (config_file (e t) = Parsed doc ->
        let written := {| services := doc.(services) ++ [d] |} in
        let outcome := fs_write (e (S t)) written in
        run e (Routes.post_services (Routes.Descriptor d)) t
        = (Returned match outcome with
                    | None => {| Http.statusCode := 200; Http.body := Http.BodySuccess |}
                    | Some failure =>
                        {| Http.statusCode := 500; Http.body := Http.BodyError failure |}
                    end,
           [EvReadConfig (Parsed doc); EvWriteConfig written outcome])
        /\ List.firstn (length doc.(services)) written.(services) = doc.(services)
        /\ List.last written.(services) d = d
        /\ length written.(services) = S (length doc.(services))).
Proof.
  intros e t d doc msg. split; [reflexivity|]. intros Hc written outcome.
  split; [|split; [|split]].
  - rewrite (run_post_services e t d doc Hc). fold written outcome.
    destruct outcome; reflexivity.
  - unfold written. cbn [services]. rewrite firstn_app, Nat.sub_diag, firstn_all.
    cbn. apply app_nil_r.
  - unfold written. cbn [services]. apply last_last.
  - unfold written. cbn [services]. rewrite length_app. cbn. lia.
Qed.

Lemma X17_add_service_appends_witness :
  let doc := {| services := [web; api] |} in
  let e := always (world (Parsed doc) (fun _ => true) (fun _ => lsof_silent)) in
  run e (Routes.post_services (Routes.Descriptor api_twin)) 0
  = (Returned {| Http.statusCode := 200; Http.body := Http.BodySuccess |},
     [EvReadConfig (Parsed doc);
      EvWriteConfig {| services := [web; api; api_twin] |} None]).
Proof.
  intros doc e.
  destruct (X17_add_service_appends e 0 api_twin doc "" ) as [_ H].
  destruct (H eq_refl) as [Hrun _]. exact Hrun.
Defined.

Lemma find_app_first {A} (f : A -> bool) (l l' : list A) :
  List.find f (l ++ l')
  = match List.find f l with Some x => Some x | None => List.find f l' end.
Proof.
  induction l as [|a l IH]; [reflexivity|]. simpl. destruct (f a); [reflexivity | exact IH].
Qed.

Lemma strict_eq_own_port (d : ServiceDescriptor) :
  Js.strict_eq d.(port) (Js.Num d.(port)) = true.
Proof. apply strict_eq_true. reflexivity. Qed.

(** X18. Adding and loading: when the file keeps what the add route wrote, a
    load right after the add returns the descriptors that were there followed
    by the new one, all fields as given.  The lookup by the new descriptor's
    port finds it when the port was not configured before; when it was, the
    lookup keeps returning the older descriptor, and the new one is never
    found.  The lookups by other ports are as before. *)
Theorem X18_add_then_load :
  forall (e : Env) (t : nat) (d : ServiceDescriptor) (doc : Config),
    let written := {| services := doc.(services) ++ [d] |} in
    config_file (e t) = Parsed doc ->
    fs_write (e (1 + t)%nat) written = None ->
    config_file (e (2 + t)%nat) = Parsed written ->
    let loaded := doc.(services) ++ [d] in
    run e (_ <- Routes.post_services (Routes.Descriptor d) ;; Mcp.loadServices) t
    = (Returned loaded,
       [EvReadConfig (Parsed doc); EvWriteConfig written None; EvReadConfig (Parsed written)])
    /\ In d loaded
    /\ (services_find doc.(services) (Js.Num d.(port)) = None ->
        services_find loaded (Js.Num d.(port)) = Some d)
    /\ (forall older, services_find doc.(services) (Js.Num d.(port)) = Some older ->
          services_find loaded (Js.Num d.(port)) = Some older)
    /\ (forall q, q <> Js.Num d.(port) ->
          services_find loaded q = services_find doc.(services) q).
Proof.
  intros e t d doc written Hc Hw Hc' loaded.
  split; [|split; [|split; [|split]]].
  - rewrite run_bind, (run_post_services e t d doc Hc). fold written.
    cbn [Nat.add] in Hw, Hc'. rewrite Hw. cbn [length Nat.add].
    unfold Mcp.loadServices. cbn [run]. rewrite Hc'. reflexivity.
  - apply in_or_app. right. now left.
  - intros H. unfold services_find, loaded in *. rewrite find_app_first, H.
    cbn [List.find]. now rewrite strict_eq_own_port.
  - intros older H. unfold services_find, loaded in *. now rewrite find_app_first, H.
  - intros q Hq. unfold services_find, loaded. rewrite find_app_first.
    destruct (List.find _ doc.(services)); [reflexivity|]. cbn [List.find].
    destruct (Js.strict_eq (port d) q) eqn:E; [|reflexivity].
    apply strict_eq_true in E. congruence.
Qed.

Lemma X18_add_then_load_witness :
  let doc := {| services := [web; api] |} in
  let written := {| services := [web; api; db] |} in
  let e := switch_at 2 (world (Parsed doc) (fun _ => true) (fun _ => lsof_silent))
                       (world (Parsed written) (fun _ => true) (fun _ => lsof_silent)) in
  fst (run e (_ <- Routes.post_services (Routes.Descriptor db) ;; Mcp.loadServices) 0)
  = Returned [web; api; db]
  /\ services_find [web; api; db] (Js.Num 5432) = Some db.
Proof.
  intros doc written e.
  destruct (X18_add_then_load e 0 db doc eq_refl eq_refl eq_refl)
    as (Hrun & _ & Hfind & _).
  split; [exact (f_equal fst Hrun) | exact (Hfind eq_refl)].
Defined.

Lemma run_delete_service (e : Env) (t : nat) (p : Js.num) (doc : Config) :
  config_file (e t) = Parsed doc ->
  let kept := {| services := List.filter (fun s => negb (Js.strict_eq s.(port) p))
                               doc.(services) |} in
  run e (Http.delete_service p) t
  = (match fs_write (e (S t)) kept with
     | None => Returned {| Http.statusCode := 200; Http.body := Http.BodySuccess |}
     | Some msg => Thrown msg
     end,
     [EvReadConfig (Parsed doc); EvWriteConfig kept (fs_write (e (S t)) kept)]).
Proof.
  intros Hc kept. unfold Http.delete_service. cbn [run]. rewrite Hc. cbn [run].
  fold kept. destruct (fs_write _ _); reflexivity.
Qed.

Lemma remove_port_of_unconfigured (l : list ServiceDescriptor) (p : Js.num) :
  services_find l p = None ->
  List.filter (fun s => negb (Js.strict_eq s.(port) p)) l = l.
Proof.
  unfold services_find. induction l as [|a l IH]; [reflexivity|]. cbn [List.find List.filter].
  destruct (Js.strict_eq (port a) p); [discriminate|]. intros H. cbn [negb].
  now rewrite (IH H).
Qed.

(** X19. Adding and removing: when the file keeps what the add route wrote,
    removing the port of the descriptor just added writes back the services
    that were there before the add, less those that had the same port; when
    the port was not configured before, the file is back to the services it
    held. *)
Theorem X19_add_then_remove :
  forall (e : Env) (t : nat) (d : ServiceDescriptor) (doc : Config),
    let written := {| services := doc.(services) ++ [d] |} in
    let kept := {| services := List.filter (fun s => negb (Js.strict_eq s.(port)
                                                            (Js.Num d.(port))))
                                 doc.(services) |} in
    config_file (e t) = Parsed doc ->
    fs_write (e (1 + t)%nat) written = None ->
    config_file (e (2 + t)%nat) = Parsed written ->
    snd (run e (_ <- Routes.post_services (Routes.Descriptor d) ;;
                Http.delete_service (Js.Num d.(port))) t)
    = [EvReadConfig (Parsed doc); EvWriteConfig written None;
       EvReadConfig (Parsed written);
       EvWriteConfig kept (fs_write (e (3 + t)%nat) kept)]
    /\ (services_find doc.(services) (Js.Num d.(port)) = None -> kept = doc).
Proof.
  intros e t d doc written kept Hc Hw Hc'. split.
  - rewrite run_bind, (run_post_services e t d doc Hc). fold written.
    cbn [Nat.add] in Hw, Hc'. rewrite Hw. cbn [length Nat.add].
    rewrite (run_delete_service e (S (S t)) _ written Hc').
    assert (E : List.filter (fun s => negb (Js.strict_eq s.(port) (Js.Num d.(port))))
                  written.(services) = kept.(services)).
    { unfold written, kept. cbn [services]. rewrite List.filter_app. cbn [List.filter].
      rewrite strict_eq_own_port. cbn. apply app_nil_r. }
    rewrite E. change {| services := services kept |} with kept.
    destruct (fs_write (e (S (S (S t)))) kept); reflexivity.
  - intros H. unfold kept. rewrite (remove_port_of_unconfigured _ _ H).
    now destruct doc.
Qed.

Lemma X19_add_then_remove_witness :
  let doc := {| services := [web; api] |} in
  let written := {| services := [web; api; db] |} in
  let e := switch_at 2 (world (Parsed doc) (fun _ => true) (fun _ => lsof_silent))
                       (world (Parsed written) (fun _ => true) (fun _ => lsof_silent)) in
  snd (run e (_ <- Routes.post_services (Routes.Descriptor db) ;;
              Http.delete_service (Js.Num 5432)) 0)
  = [EvReadConfig (Parsed doc); EvWriteConfig written None;
     EvReadConfig (Parsed written); EvWriteConfig doc None].
Proof.
  intros doc written e.
  destruct (X19_add_then_remove e 0 db doc eq_refl eq_refl eq_refl) as [Hrun Hback].
  etransitivity; [exact Hrun|]. now rewrite (Hback eq_refl).
Defined.

Lemma filter_twice {A} (f : A -> bool) (l : list A) :
  List.filter f (List.filter f l) = List.filter f l.
Proof.
  induction l as [|a l IH]; [reflexivity|]. simpl.
  destruct (f a) eqn:E; simpl; [rewrite E|]; now rewrite IH.
Qed.

(** X20. Removing a port twice is removing it once: when the file keeps what
    the first removal wrote, the second removal writes the same services
    again.  The route does not tell an unknown port from a known one: it
    rewrites the file and answers success either way. *)
Theorem X20_remove_twice :
  forall (e : Env) (t : nat) (p : Js.num) (doc : Config),
    let kept := {| services := List.filter (fun s => negb (Js.strict_eq s.(port) p))
                                 doc.(services) |} in
    config_file (e t) = Parsed doc ->
    fs_write (e (1 + t)%nat) kept = None ->
    config_file (e (2 + t)%nat) = Parsed kept ->
    fs_write (e (3 + t)%nat) kept = None ->
    run e (_ <- Http.delete_service p ;; Http.delete_service p) t
    = (Returned {| Http.statusCode := 200; Http.body := Http.BodySuccess |},
       [EvReadConfig (Parsed doc); EvWriteConfig kept None;
        EvReadConfig (Parsed kept); EvWriteConfig kept None])
    /\ (services_find doc.(services) p = None -> kept = doc).
Proof.
  intros e t p doc kept Hc Hw Hc' Hw'. cbn [Nat.add] in *. split.
  - rewrite run_bind, (run_delete_service e t p doc Hc). fold kept. rewrite Hw.
    cbn [length Nat.add]. rewrite (run_delete_service e (S (S t)) p kept Hc').
    assert (E : {| services := List.filter (fun s => negb (Js.strict_eq s.(port) p))
                                 kept.(services) |} = kept).
    { unfold kept. cbn [services]. now rewrite filter_twice. }
    rewrite E, Hw'. reflexivity.
  - intros H. unfold kept. rewrite (remove_port_of_unconfigured _ _ H). now destruct doc.
Qed.

Lemma X20_remove_twice_witness :
  let doc := {| services := [api; web; api_twin] |} in
  let kept := {| services := [web] |} in
  let e := switch_at 2 (world (Parsed doc) (fun _ => true) (fun _ => lsof_silent))
                       (world (Parsed kept) (fun _ => true) (fun _ => lsof_silent)) in
  run e (_ <- Http.delete_service (Js.Num 4000) ;; Http.delete_service (Js.Num 4000)) 0
  = (Returned {| Http.statusCode := 200; Http.body := Http.BodySuccess |},
     [EvReadConfig (Parsed doc); EvWriteConfig kept None;
      EvReadConfig (Parsed kept); EvWriteConfig kept None]).
Proof.
  intros doc kept e.
  destruct (X20_remove_twice e 0 (Js.Num 4000) doc eq_refl eq_refl eq_refl eq_refl)
    as [Hrun _].
  exact Hrun.
Defined.

(** ** Requests without a port number *)

Lemma strict_eq_NaN (l : list ServiceDescriptor) :
  services_find l Js.NaN = None
  /\ List.filter (fun s => negb (Js.strict_eq s.(port) Js.NaN)) l = l.
Proof.
  unfold services_find. induction l as [|a l [IH1 IH2]]; [split; reflexivity|].
  cbn [List.find List.filter]. change (Js.strict_eq (port a) Js.NaN) with false.
  cbn [negb]. rewrite IH2. split; [exact IH1 | reflexivity].
Qed.

(** X21. A path piece that does not begin with a digit, after white space
    and a sign, is read as [NaN], and so is an empty piece; the routes take
    [NaN] for a port like any other.  No descriptor has it: start answers 404
    and remove writes the services back unchanged.  Stop does not look at the
    registry: it hands the shell the termination command written with [NaN]
    and answers success. *)
Theorem X21_requests_without_port_number :
  forall (HOME : string) (penv : gmap string string) (e : Env) (t : nat)
         (doc : Config) (c : ascii) (rest : string),
    is_digit c = false -> Js.is_ws c = false -> c <> "-"%char -> c <> "+"%char ->
    config_file (e t) = Parsed doc ->
    Routes.parseInt (String c rest) = Js.NaN
    /\ Routes.parseInt EmptyString = Js.NaN
    /\ run e (Http.post_start HOME penv Js.NaN) t
       = (Returned {| Http.statusCode := 404;
                      Http.body := Http.BodyError "Service not found" |},
          [EvReadConfig (Parsed doc)])
    /\ snd (run e (Http.delete_service Js.NaN) t)
       = [EvReadConfig (Parsed doc); EvWriteConfig doc (fs_write (e (S t)) doc)]
    /\ run e (Http.post_stop Js.NaN) t
       = (Returned {| Http.statusCode := 200; Http.body := Http.BodySuccess |},
          [EvExec "lsof -i :NaN -t | xargs kill -9 2>/dev/null"
                  (sh_exec (e t) "lsof -i :NaN -t | xargs kill -9 2>/dev/null");
           EvProcDelete Js.NaN]).
Proof.
  intros HOME penv e t doc c rest Hd Hws Hm Hp Hc.
  destruct (strict_eq_NaN doc.(services)) as [Hfind Hfilter].
  split; [now apply parseInt_not_a_number|]. split; [reflexivity|].
  split; [now apply http_start_unknown|]. split; [|reflexivity].
  rewrite (run_delete_service e t Js.NaN doc Hc), Hfilter.
  destruct doc as [l]. cbn [services]. destruct (fs_write _ _); reflexivity.
Qed.

Lemma X21_requests_without_port_number_witness :
  Routes.route "POST" "/api/stop/web" = Routes.Stop Js.NaN
  /\ Routes.parseInt "web" = Js.NaN.
Proof.
  destruct (X21_requests_without_port_number home ∅
              (always (world (Parsed {| services := [web] |}) (fun _ => true)
                             (fun _ => lsof_silent)))
              0 {| services := [web] |} "w"%char "eb"
              eq_refl eq_refl ltac:(discriminate) ltac:(discriminate) eq_refl)
    as [H _].
  split; [reflexivity | exact H].
Defined.

(** X22. The two editor routes answer 404 for a port without a descriptor
    and run nothing; for a configured port they hand the shell one command,
    the program ([code] or [open]) followed by the expanded path between
    double quotes, and answer 200 with [success] telling whether the command
    ended without an error.  They launch nothing and write nothing. *)
Theorem X22_open_in_editor_or_finder :
  forall (HOME : string) (e : Env) (t : nat) (p : Js.num) (doc : Config),
    config_file (e t) = Parsed doc ->
    (services_find doc.(services) p = None ->
       run e (Routes.post_code HOME p) t
       = (Returned {| Routes.replyCode := 404;
                      Routes.json := Routes.JError "Service not found" |},
          [EvReadConfig (Parsed doc)])
       /\ run e (Routes.post_finder HOME p) t
          = (Returned {| Routes.replyCode := 404;
                         Routes.json := Routes.JError "Service not found" |},
             [EvReadConfig (Parsed doc)]))
    /\ (forall s, services_find doc.(services) p = Some s ->
          let dir := Http.expandPath HOME s.(path) in
          let answer cmd :=
            (Returned {| Routes.replyCode := 200;
                         Routes.json :=
                           Routes.JFlag
                             (match (sh_exec (e (S t)) cmd).(error) with
                              | Some _ => false
                              | None => true
                              end) |},
             [EvReadConfig (Parsed doc); EvExec cmd (sh_exec (e (S t)) cmd)]) in
          run e (Routes.post_code HOME p) t
          = answer ("code " +:+ Routes.double_quote +:+ dir +:+ Routes.double_quote)
          /\ run e (Routes.post_finder HOME p) t
             = answer ("open " +:+ Routes.double_quote +:+ dir +:+ Routes.double_quote)).
Proof.
  intros HOME e t p doc Hc. split.
  - intros H. unfold Routes.post_code, Routes.post_finder, Routes.open_in.
    rewrite !(run_http_load e t _ doc Hc), H. split; reflexivity.
  - intros s H dir answer. unfold Routes.post_code, Routes.post_finder, Routes.open_in.
    rewrite !(run_http_load e t _ doc Hc), H. split; reflexivity.
Qed.

Lemma X22_open_in_editor_or_finder_witness :
  let doc := {| services := [api] |} in
  let e := always (world (Parsed doc) (fun _ => true) (fun _ => lsof_silent)) in
  snd (run e (Routes.post_code home (Js.Num 4000)) 0)
  = [EvReadConfig (Parsed doc);
     EvExec ("code " +:+ Routes.double_quote +:+ "/home/dev/proj" +:+ Routes.double_quote)
            lsof_silent]
  /\ fst (run e (Routes.post_finder home (Js.Num 5000)) 0)
     = Returned {| Routes.replyCode := 404;
                   Routes.json := Routes.JError "Service not found" |}.
Proof.
  intros doc e.
  destruct (X22_open_in_editor_or_finder home e 0 (Js.Num 4000) doc eq_refl) as [_ Hfound].
  destruct (X22_open_in_editor_or_finder home e 0 (Js.Num 5000) doc eq_refl) as [Hnone _].
  destruct (Hfound api eq_refl) as [Hcode _]. destruct (Hnone eq_refl) as [_ Hfinder].
  split; [exact (f_equal snd Hcode) | exact (f_equal fst Hfinder)].
Defined.
